(** * A2A host agent API: the event-to-response adaptation layer

    A shallow embedding of [src/host_agent/api_app.py]: the synchronous
    [/chat] aggregation loop ([get_response_from_agent], [chat]), the
    [/chat/stream] generator ([generate_stream]), [health_check] and
    [startup_event], followed by the properties the specification states
    about them.

    The agent runtime (google.adk, google.genai) and the web framework
    (FastAPI) are external collaborators.  Their objects appear here as
    records holding exactly the attributes the handlers read, and the
    runner's asynchronous iterator as the list of its steps. *)

From Stdlib Require Import List String Ascii ZArith Bool Lia DecimalString.
Import ListNotations.
Local Open Scope string_scope.
Set Warnings "-register-all".

(** ** Python values *)

(** JSON-shaped Python values: what a tool payload ([dict[str, Any]]) or a
    record handed to the caller is made of.  A [dict] keeps its insertion
    order; its keys are unique in any dict Python builds. *)
Inductive pyval : Type :=
| PNone
| PBool (b : bool)
| PInt (n : Z)
| PStr (s : string)
| PList (items : list pyval)
| PDict (entries : list (string * pyval)).

(** [key in d] and [d[key]] on the entries of a dict. *)
Fixpoint dict_get (key : string) (d : list (string * pyval)) : option pyval :=
  match d with
  | [] => None
  | (k, v) :: rest => if String.eqb k key then Some v else dict_get key rest
  end.

(** An optional [str] attribute as a value: [None] stays [None]. *)
Definition opt_str (o : option string) : pyval :=
  match o with
  | Some s => PStr s
  | None => PNone
  end.

(** Truthiness of an optional [str]: [None] and [""] are falsy. *)
Definition truthy_str (o : option string) : bool :=
  match o with
  | Some s => negb (String.eqb s "")
  | None => false
  end.

(** [x or default] on an optional [str]. *)
Definition str_or (o : option string) (default : string) : string :=
  match o with
  | Some s => if String.eqb s "" then default else s
  | None => default
  end.

(** ** The collaborator's objects (google.genai.types, google.adk.events) *)

(** [types.FunctionCall]: a pydantic model with the optional fields [id],
    [args] and [name], declared in this order. *)
Record FunctionCall : Type := mkFunctionCall {
  fc_id : option string;
  fc_args : option (list (string * pyval));
  fc_name : option string
}.

(** [types.FunctionResponse]: the handlers read [name] and [response]. *)
Record FunctionResponse : Type := mkFunctionResponse {
  fr_name : option string;
  fr_response : pyval
}.

(** [types.Part]: the handlers read [text], [function_call] and
    [function_response].  A pydantic model instance is truthy, so an
    attribute holding one is truthy exactly when it is not [None]. *)
Record Part : Type := mkPart {
  text : option string;
  function_call : option FunctionCall;
  function_response : option FunctionResponse
}.

Record Content : Type := mkContent {
  parts : option (list Part);
  role : option string
}.

Record EventActions : Type := mkEventActions {
  escalate : option bool
}.

(** [Event]: [is_final_response] holds what the method
    [event.is_final_response()] returns for this event. *)
Record Event : Type := mkEvent {
  content : option Content;
  actions : option EventActions;
  error_message : option string;
  is_final_response : bool
}.

(** [function_call.model_dump(exclude_none=True)], pydantic's dump of the
    call object: the dict of the fields that are set, in declaration order.
    [args] is a plain dict, which the dump keeps as it is. *)
Definition model_dump_exclude_none (fc : FunctionCall)
  : list (string * pyval) :=
  ((match fc_id fc with Some i => [("id", PStr i)] | None => [] end)
   ++ (match fc_args fc with Some a => [("args", PDict a)] | None => [] end)
   ++ (match fc_name fc with Some n => [("name", PStr n)] | None => [] end)
  )%list.

(** ** Exceptions and effects *)

(** Instances of [Exception]: an [HTTPException] with its status and
    detail, or any other exception by the [repr] of its class and its
    [str()].  [BaseException]-only signals (cancellation, interpreter exit)
    are not instances of [Exception] and are outside this model. *)
Inductive exn : Type :=
| PyException (cls : string) (msg : string)
| HTTPException (status_code : Z) (detail : string).

Definition string_of_Z (z : Z) : string := NilZero.string_of_int (Z.to_int z).

(** [str(e)]. *)
Definition str (e : exn) : string :=
  match e with
  | PyException _ msg => msg
  | HTTPException code detail => string_of_Z code ++ ": " ++ detail
  end.

(** [type(e)] as an f-string prints it. *)
Definition type_repr (e : exn) : string :=
  match e with
  | PyException cls _ => "<class '" ++ cls ++ "'>"
  | HTTPException _ _ => "<class 'fastapi.exceptions.HTTPException'>"
  end.

(** What a handler writes to the process's output streams. *)
Inductive output : Type :=
| Stdout (line : string)
| Traceback (e : exn).

(** A frame of the event stream: the chunk ["data: <json>\n\n"] whose
    JSON text is [json.dumps(data)], kept as the mapping [data] itself. *)
Inductive frame : Type :=
| Frame (data : pyval).

(** A body of Python code that emits items of type [W] one after the other
    (lines written by a handler, frames yielded by a generator) and either
    returns a value or raises.  What was emitted before a [raise] stays
    emitted. *)
Definition Eff (W A : Type) : Type := list W -> (exn + A) * list W.

Definition ret {W A : Type} (a : A) : Eff W A := fun out => (inr a, out).

Definition bind {W A B : Type} (m : Eff W A) (k : A -> Eff W B) : Eff W B :=
  fun out =>
    match m out with
    | (inr a, out') => k a out'
    | (inl e, out') => (inl e, out')
    end.

Definition raise {W A : Type} (e : exn) : Eff W A := fun out => (inl e, out).

Definition emit {W : Type} (w : W) : Eff W unit :=
  fun out => (inr tt, (out ++ [w])%list).

(** [try: body / except Exception as e: handler e]. *)
Definition try_except {W A : Type} (body : Eff W A) (handler : exn -> Eff W A)
  : Eff W A :=
  fun out =>
    match body out with
    | (inl e, out') => handler e out'
    | (inr a, out') => (inr a, out')
    end.

(** A call that returns or raises without emitting anything. *)
Definition lift {W A : Type} (r : exn + A) : Eff W A := fun out => (r, out).

Declare Scope py_scope.
Delimit Scope py_scope with py.
Notation "x <- m ;; k" := (bind m (fun x => k))
  (at level 61, m at next level, right associativity) : py_scope.
Notation "m ;; k" := (bind m (fun _ => k))
  (at level 61, right associativity) : py_scope.
Local Open Scope py_scope.

(** [for x in xs: body x]. *)
Fixpoint for_each {W A : Type} (xs : list A) (body : A -> Eff W unit)
  : Eff W unit :=
  match xs with
  | [] => ret tt
  | x :: rest => body x ;; for_each rest body
  end.

(** Handlers write to the output streams; generators yield frames. *)
Definition Py (A : Type) : Type := Eff output A.
Definition Gen (A : Type) : Type := Eff frame A.

Definition print (line : string) : Py unit := emit (Stdout line).
Definition traceback_print_exc (e : exn) : Py unit := emit (Traceback e).
Definition yield (f : frame) : Gen unit := emit f.

(** ** The runner and the session service *)

(** One step of the runner's asynchronous iterator: it hands over the next
    event or raises.  The end of the list is the end of the iteration. *)
Inductive step : Type :=
| Next (event : Event)
| Throw (e : exn).

(** [Runner.run_async(user_id, session_id, new_message)]: the call raises
    or returns the iterator. *)
Record Runner : Type := mkRunner {
  run_async : string -> string -> Content -> exn + list step
}.

(** [InMemorySessionService.create_session(app_name, user_id, session_id)]. *)
Record SessionService : Type := mkSessionService {
  create_session : string -> string -> string -> Py unit
}.

Definition APP_NAME : string := "routing_app".
Definition USER_ID : string := "default_user".
Definition SESSION_ID : string := "default_session".

(** [types.Content(role="user", parts=[types.Part(text=message)])]. *)
Definition user_message (message : string) : Content :=
  {| parts := Some [ {| text := Some message;
                        function_call := None;
                        function_response := None |} ];
     role := Some "user" |}.

(** ** Reading an event *)

(** [event.content and event.content.parts]: the parts, when the event has
    content whose parts list is not empty. *)
Definition truthy_parts (event : Event) : option (list Part) :=
  match content event with
  | Some c =>
      match parts c with
      | Some (p :: ps) => Some (p :: ps)
      | _ => None
      end
  | None => None
  end.

(** [event.actions and event.actions.escalate]. *)
Definition escalates (event : Event) : bool :=
  match actions event with
  | Some a =>
      match escalate a with
      | Some true => true
      | _ => false
      end
  | None => false
  end.

(** ["".join([p.text for p in ps if p.text])]. *)
Definition join_text (ps : list Part) : string :=
  String.concat ""
    (map (fun p => match text p with Some s => s | None => "" end)
         (filter (fun p => truthy_str (text p)) ps)).

(** [f"Agent escalated: {event.error_message or 'No specific message.'}"]. *)
Definition escalation_text (event : Event) : string :=
  "Agent escalated: " ++ str_or (error_message event) "No specific message.".

(** ** [/chat] *)

Record ChatRequest : Type := mkChatRequest {
  message : string
}.

Record ChatResponse : Type := mkChatResponse {
  response : string;
  tool_calls : option (list pyval);
  tool_responses : option (list pyval)
}.

(** The dict [get_response_from_agent] returns, by its three keys. *)
Record AgentResult : Type := mkAgentResult {
  result_response : string;
  result_tool_calls : list pyval;
  result_tool_responses : list pyval
}.

(** The body of [for part in event.content.parts] in
    [get_response_from_agent], on the two lists it appends to. *)
Definition record_part (acc : list pyval * list pyval) (part : Part)
  : list pyval * list pyval :=
  let '(tool_calls, tool_responses) := acc in
  match function_call part with
  | Some fc =>
      let tool_call :=
        PDict [("name", opt_str (fc_name fc));
               ("arguments", PDict (model_dump_exclude_none fc))] in
      ((tool_calls ++ [tool_call])%list, tool_responses)
  | None =>
      match function_response part with
      | Some fr =>
          let response_content := fr_response fr in
          let formatted_response_data :=
            match response_content with
            | PDict d =>
                match dict_get "response" d with
                | Some nested => nested
                | None => response_content
                end
            | _ => response_content
            end in
          let tool_response :=
            PDict [("name", opt_str (fr_name fr));
                   ("response", formatted_response_data)] in
          (tool_calls, (tool_responses ++ [tool_response])%list)
      | None => acc
      end
  end.

(** The [async for event in events_iterator] loop of
    [get_response_from_agent] and the [return] after it, on the three
    local variables. *)
Fixpoint consume_events (events_iterator : list step)
    (tool_calls tool_responses : list pyval) (final_response : string)
  : Py AgentResult :=
  match events_iterator with
  | [] =>
      ret {| result_response := final_response;
             result_tool_calls := tool_calls;
             result_tool_responses := tool_responses |}
  | Throw e :: _ => raise e
  | Next event :: rest =>
      let '(tool_calls, tool_responses) :=
        match truthy_parts event with
        | Some ps => fold_left record_part ps (tool_calls, tool_responses)
        | None => (tool_calls, tool_responses)
        end in
      if is_final_response event then
        let final_response :=
          match truthy_parts event with
          | Some ps => join_text ps
          | None =>
              if escalates event then escalation_text event
              else final_response
          end in
        (* break *)
        ret {| result_response := final_response;
               result_tool_calls := tool_calls;
               result_tool_responses := tool_responses |}
      else consume_events rest tool_calls tool_responses final_response
  end.

Definition get_response_from_agent (runner : Runner) (message : string)
  : Py AgentResult :=
  try_except
    (events_iterator <-
       lift (run_async runner USER_ID SESSION_ID (user_message message)) ;;
     consume_events events_iterator [] [] "")
    (fun e =>
       print ("Error in get_response_from_agent (Type: " ++ type_repr e
              ++ "): " ++ str e) ;;
       traceback_print_exc e ;;
       raise (HTTPException 500 ("Error processing request: " ++ str e))).

(** [chat]: [except HTTPException: raise], then [except Exception as e]. *)
Definition chat (runner : Runner) (request : ChatRequest) : Py ChatResponse :=
  try_except
    (result <- get_response_from_agent runner (message request) ;;
     ret {| response := result_response result;
            tool_calls := Some (result_tool_calls result);
            tool_responses := Some (result_tool_responses result) |})
    (fun e =>
       match e with
       | HTTPException _ _ => raise e
       | _ =>
           print ("Error in chat endpoint: " ++ str e) ;;
           traceback_print_exc e ;;
           raise (HTTPException 500 ("Internal server error: " ++ str e))
       end).

(** ** [/chat/stream] *)

(** The body of [for part in event.content.parts] in [generate_stream]. *)
Definition stream_part (part : Part) : Gen unit :=
  match function_call part with
  | Some fc =>
      let data :=
        PDict [("type", PStr "tool_call");
               ("name", opt_str (fc_name fc));
               ("arguments", PDict (model_dump_exclude_none fc))] in
      yield (Frame data)
  | None =>
      match function_response part with
      | Some fr =>
          let response_content := fr_response fr in
          let formatted_response_data :=
            match response_content with
            | PDict d =>
                match dict_get "response" d with
                | Some nested => nested
                | None => response_content
                end
            | _ => response_content
            end in
          let data :=
            PDict [("type", PStr "tool_response");
                   ("name", opt_str (fr_name fr));
                   ("response", formatted_response_data)] in
          yield (Frame data)
      | None => ret tt
      end
  end.

(** The [async for event in events_iterator] loop of [generate_stream]. *)
Fixpoint stream_events (events_iterator : list step) : Gen unit :=
  match events_iterator with
  | [] => ret tt
  | Throw e :: _ => raise e
  | Next event :: rest =>
      match truthy_parts event with
      | Some ps => for_each ps stream_part
      | None => ret tt
      end ;;
      if is_final_response event then
        let final_response :=
          match truthy_parts event with
          | Some ps => join_text ps
          | None => if escalates event then escalation_text event else ""
          end in
        let data :=
          PDict [("type", PStr "final_response");
                 ("response", PStr final_response)] in
        (* break *)
        yield (Frame data)
      else stream_events rest
  end.

Definition generate_stream (runner : Runner) (request : ChatRequest)
  : Gen unit :=
  try_except
    (events_iterator <-
       lift (run_async runner USER_ID SESSION_ID
               (user_message (message request))) ;;
     stream_events events_iterator)
    (fun e =>
       let error_data :=
         PDict [("type", PStr "error"); ("error", PStr (str e))] in
       yield (Frame error_data)).

(** [StreamingResponse(content, media_type=...)]: the status is fixed when
    the response is built (200 unless given), before [content] is run. *)
Record StreamingResponse : Type := mkStreamingResponse {
  body_iterator : Gen unit;
  status_code_of : Z;
  media_type : string
}.

Definition chat_stream (runner : Runner) (request : ChatRequest)
  : StreamingResponse :=
  {| body_iterator := generate_stream runner request;
     status_code_of := 200;
     media_type := "text/plain" |}.

(** Sending the streamed body: the generator is consumed from a fresh
    start.  The result holds the frames it yields, in order, and how it
    finishes ([inl e]: it raised [e]). *)
Definition run_stream (runner : Runner) (request : ChatRequest)
  : (exn + unit) * list frame :=
  body_iterator (chat_stream runner request) [].

(** ** [/health] and startup *)

Record HealthResponse : Type := mkHealthResponse {
  status : string;
  service : string;
  version : string
}.

Definition health_check : Py HealthResponse :=
  ret {| status := "healthy";
         service := "a2a-host-agent";
         version := "1.0.0" |}.

Definition startup_event (SESSION_SERVICE : SessionService) : Py unit :=
  try_except
    (print "Creating ADK session..." ;;
     create_session SESSION_SERVICE APP_NAME USER_ID SESSION_ID ;;
     print "ADK session created successfully.")
    (fun e =>
       print ("Error creating ADK session: " ++ str e) ;;
       traceback_print_exc e).

(** ** The routes, as FastAPI serves them *)

Record HttpReply : Type := mkHttpReply {
  http_status : Z;
  http_body : pyval
}.

(** A JSON route: a handler that returns is answered with status 200 and
    the returned model as the body; one that raises [HTTPException] is
    answered with its status code and [{"detail": detail}]; any other
    exception with the framework's plain 500. *)
Definition serve {A : Type} (to_json : A -> pyval) (handler : Py A)
  : list output -> HttpReply * list output :=
  fun out =>
    match handler out with
    | (inr a, out') => ({| http_status := 200; http_body := to_json a |}, out')
    | (inl (HTTPException code detail), out') =>
        ({| http_status := code;
            http_body := PDict [("detail", PStr detail)] |}, out')
    | (inl (PyException _ _), out') =>
        ({| http_status := 500;
            http_body := PStr "Internal Server Error" |}, out')
    end.

Definition opt_list (o : option (list pyval)) : pyval :=
  match o with
  | Some l => PList l
  | None => PNone
  end.

Definition chat_json (r : ChatResponse) : pyval :=
  PDict [("response", PStr (response r));
         ("tool_calls", opt_list (tool_calls r));
         ("tool_responses", opt_list (tool_responses r))].

Definition health_json (h : HealthResponse) : pyval :=
  PDict [("status", PStr (status h));
         ("service", PStr (service h));
         ("version", PStr (version h))].

Definition GET_health : list output -> HttpReply * list output :=
  serve health_json health_check.

Definition POST_chat (runner : Runner) (request : ChatRequest)
  : list output -> HttpReply * list output :=
  serve chat_json (chat runner request).

(** ** Vocabulary of the specification *)

(** The parts of an event in arrival order; none when the event has no
    content or an empty parts list. *)
Definition event_parts (event : Event) : list Part :=
  match truthy_parts event with
  | Some ps => ps
  | None => []
  end.

(** The record of a tool call: the call's name and its arguments entry. *)
Definition tool_call_record (fc : FunctionCall) : pyval :=
  PDict [("name", opt_str (fc_name fc));
         ("arguments", PDict (model_dump_exclude_none fc))].

(** The record of a tool response with recorded value [value]. *)
Definition tool_response_record (fr : FunctionResponse) (value : pyval)
  : pyval :=
  PDict [("name", opt_str (fr_name fr)); ("response", value)].

(** The value kept from a tool payload: the entry under ["response"] when
    the payload is a mapping that has one, the whole payload otherwise. *)
Definition kept_response (payload : pyval) : pyval :=
  match payload with
  | PDict d =>
      match dict_get "response" d with
      | Some nested => nested
      | None => payload
      end
  | _ => payload
  end.

(** A part is a function-call part when it carries a function call, and a
    function-response part when what it carries is a function response (a
    [Part] holds one kind of data; the handlers look at [function_call]
    first, so a part carrying a call counts as a function-call part). *)
Definition part_tool_calls (part : Part) : list pyval :=
  match function_call part with
  | Some fc => [tool_call_record fc]
  | None => []
  end.

Definition part_tool_responses (part : Part) : list pyval :=
  match function_call part, function_response part with
  | None, Some fr => [tool_response_record fr (kept_response (fr_response fr))]
  | _, _ => []
  end.

Definition event_tool_calls (event : Event) : list pyval :=
  flat_map part_tool_calls (event_parts event).

Definition event_tool_responses (event : Event) : list pyval :=
  flat_map part_tool_responses (event_parts event).

(** The events up to and including the first one flagged final (all of
    them when none is). *)
Fixpoint through_final (events : list Event) : list Event :=
  match events with
  | [] => []
  | event :: rest =>
      if is_final_response event then [event]
      else event :: through_final rest
  end.

Definition not_final (event : Event) : Prop := is_final_response event = false.
Definition is_final (event : Event) : Prop := is_final_response event = true.

(** The text a part contributes to a reply. *)
Definition part_text (part : Part) : string :=
  match text part with
  | Some s => s
  | None => ""
  end.

(** The frames of [/chat/stream], by the mapping each one carries. *)
Definition tool_call_frame (fc : FunctionCall) : frame :=
  Frame (PDict [("type", PStr "tool_call");
                ("name", opt_str (fc_name fc));
                ("arguments", PDict (model_dump_exclude_none fc))]).

Definition tool_response_frame (fr : FunctionResponse) (value : pyval)
  : frame :=
  Frame (PDict [("type", PStr "tool_response");
                ("name", opt_str (fr_name fr));
                ("response", value)]).

Definition final_response_frame (reply : string) : frame :=
  Frame (PDict [("type", PStr "final_response"); ("response", PStr reply)]).

Definition error_frame (e : exn) : frame :=
  Frame (PDict [("type", PStr "error"); ("error", PStr (str e))]).

(** The ["type"] entry of a frame, and whether it is the string [ty]. *)
Definition frame_type (f : frame) : option pyval :=
  match f with
  | Frame (PDict d) => dict_get "type" d
  | Frame _ => None
  end.

Definition has_type (ty : string) (f : frame) : bool :=
  match frame_type f with
  | Some (PStr s) => String.eqb s ty
  | _ => false
  end.

Definition count_type (ty : string) (fs : list frame) : nat :=
  List.length (filter (has_type ty) fs).

(** The frames of one part and of one event, in arrival order. *)
Definition part_frames (part : Part) : list frame :=
  match function_call part, function_response part with
  | Some fc, _ => [tool_call_frame fc]
  | None, Some fr => [tool_response_frame fr (kept_response (fr_response fr))]
  | None, None => []
  end.

Definition event_frames (event : Event) : list frame :=
  flat_map part_frames (event_parts event).

(** The reply the first final-flagged event stands for: the text of its
    parts when it has parts, the escalation line when it has none and
    escalates, the empty string otherwise. *)
Definition final_reply (event : Event) : string :=
  match event_parts event with
  | [] => if escalates event then escalation_text event else ""
  | ps => String.concat "" (map part_text ps)
  end.

(** A runner whose call always has the outcome [r]. *)
Definition runner_of (r : exn + list step) : Runner :=
  {| run_async := fun _ _ _ => r |}.

(** The outcome of the handlers' call to the runner for [message]: the
    fixed user and session, and the message as a single text part. *)
Definition run_outcome (runner : Runner) (message : string) : exn + list step :=
  run_async runner USER_ID SESSION_ID (user_message message).

(** The lines [get_response_from_agent] writes when it catches [e]. *)
Definition agent_error_log (e : exn) : list output :=
  [Stdout ("Error in get_response_from_agent (Type: " ++ type_repr e
           ++ "): " ++ str e);
   Traceback e].

(** ** Sample conversations *)

Definition weather_call : FunctionCall :=
  {| fc_id := Some "call-1";
     fc_args := Some [("city", PStr "Tokyo")];
     fc_name := Some "send_message" |}.

(** The payload [{"response": "X", "other": "Y"}]. *)
Definition nested_payload : pyval :=
  PDict [("response", PStr "X"); ("other", PStr "Y")].

Definition weather_result : FunctionResponse :=
  {| fr_name := Some "send_message"; fr_response := nested_payload |}.

(** A payload without a ["response"] key. *)
Definition flat_result : FunctionResponse :=
  {| fr_name := Some "list_remote_agents";
     fr_response :=
       PDict [("agents", PList [PStr "weather"; PStr "airbnb"])] |}.

Definition call_part : Part :=
  {| text := None;
     function_call := Some weather_call;
     function_response := None |}.

Definition result_part : Part :=
  {| text := None;
     function_call := None;
     function_response := Some weather_result |}.

Definition flat_result_part : Part :=
  {| text := None;
     function_call := None;
     function_response := Some flat_result |}.

Definition text_part (s : string) : Part :=
  {| text := Some s; function_call := None; function_response := None |}.

Definition event_of (ps : list Part) (final : bool) : Event :=
  {| content := Some {| parts := Some ps; role := Some "model" |};
     actions := Some {| escalate := None |};
     error_message := None;
     is_final_response := final |}.

Definition call_event : Event := event_of [call_part] false.
Definition result_event : Event := event_of [result_part] false.
Definition reply_event : Event :=
  event_of [text_part "Sunny in "; text_part "Tokyo."] true.
Definition late_event : Event := event_of [flat_result_part] false.

(** A final event without content that escalates and has no error message. *)
Definition bare_escalation : Event :=
  {| content := None;
     actions := Some {| escalate := Some true |};
     error_message := None;
     is_final_response := true |}.

(** A final event that escalates, has no error message, and whose only
    part is a tool result: it carries no text. *)
Definition tool_escalation : Event :=
  {| content := Some {| parts := Some [result_part]; role := Some "user" |};
     actions := Some {| escalate := Some true |};
     error_message := None;
     is_final_response := true |}.

Definition session_missing : exn :=
  PyException "ValueError" "Session not found: default_session".

Definition hello : ChatRequest := {| message := "Hello, how are you?" |}.

(** A session service whose [create_session] fails. *)
Definition failing_sessions : SessionService :=
  {| create_session := fun _ _ _ => raise session_missing |}.

(** A conversation: a tool call, its result, the reply, and one more event
    the runner would still hand over after the reply. *)
Definition sample_events : list Event :=
  [call_event; result_event; reply_event; late_event].

(** The same conversation from a runner that fails if asked for more. *)
Definition sample_runner : Runner :=
  runner_of (inr (map Next sample_events ++ [Throw session_missing])%list).

(** A runner whose iterator fails after the tool call. *)
Definition broken_runner : Runner :=
  runner_of (inr (map Next [call_event]
                  ++ [Throw session_missing; Next reply_event])%list).

(** A runner whose iterator ends after a tool call and its result, without
    any final event. *)
Definition unfinished_runner : Runner :=
  runner_of (inr (map Next [call_event; result_event])).

(** A runner whose final event is the escalating tool result. *)
Definition escalating_runner : Runner :=
  runner_of (inr (map Next [call_event] ++ [Next tool_escalation])%list).

(** ** [GET /] *)

Definition root : Py pyval :=
  ret (PDict
         [("service", PStr "A2A Host Agent API");
          ("description",
           PStr ("This assistant can help you to check weather and find "
                 ++ "Airbnb accommodation"));
          ("version", PStr "1.0.0");
          ("endpoints",
           PDict [("health", PStr "/health");
                  ("chat", PStr "/chat");
                  ("docs", PStr "/docs")])]).

Definition GET_root : list output -> HttpReply * list output :=
  serve (fun body => body) root.

(** ** Comparing the two chat endpoints *)

(** What a frame carries besides its leading ["type"] entry. *)
Definition frame_payload (f : frame) : pyval :=
  match f with
  | Frame (PDict (("type", _) :: rest)) => PDict rest
  | Frame data => data
  end.

(** The payloads of the frames of type [ty], in the order of the stream. *)
Definition frames_of_type (ty : string) (fs : list frame) : list pyval :=
  map frame_payload (filter (has_type ty) fs).

Definition is_tool_frame (f : frame) : Prop :=
  has_type "tool_call" f = true \/ has_type "tool_response" f = true.

(** The event with the text of every part replaced by what [f] gives. *)
Definition with_text (f : Part -> option string) (part : Part) : Part :=
  {| text := f part;
     function_call := function_call part;
     function_response := function_response part |}.

Definition retext_content (f : Part -> option string) (c : Content)
  : Content :=
  {| parts := option_map (map (with_text f)) (parts c); role := role c |}.

Definition retext (f : Part -> option string) (event : Event) : Event :=
  {| content := option_map (retext_content f) (content event);
     actions := actions event;
     error_message := error_message event;
     is_final_response := is_final_response event |}.

(** A non-final event carrying a piece of streamed text next to a call. *)
Definition chatty_call_event : Event :=
  event_of [text_part "Let me check the weather."; call_part] false.

Definition chatty_runner : Runner :=
  runner_of (inr (map Next [chatty_call_event; result_event]
                  ++ [Next reply_event])%list).

Definition quiet_runner : Runner :=
  runner_of (inr (map Next (map (retext (fun _ => None))
                              [chatty_call_event; result_event])
                  ++ [Next reply_event])%list).

(** * The integration test client ([src/test_host_api.py]) *)

Module TestHostApi.

(** ** What the script does to the outside world *)

(** A printed line: the literal text of the f-string and the values it
    formats.  [Str v] stands for the text [str(v)] and [JsonIndent2 v] for
    [json.dumps(v, indent=2)]. *)
Inductive piece : Type :=
| Lit (s : string)
| Str (v : pyval)
| JsonIndent2 (v : pyval).

(** The script prints, sends HTTP requests and sleeps. *)
Inductive client_event : Type :=
| Printed (line : list piece)
| HttpGet (url : string)
| HttpPost (url : string) (json : pyval) (headers : list (string * string))
| Slept (seconds : Z).

Definition Client (A : Type) : Type := Eff client_event A.

Definition print (line : list piece) : Client unit := emit (Printed line).
Definition sleep (seconds : Z) : Client unit := emit (Slept seconds).

(** [requests.Response]: [json] holds what [response.json()] does, which
    raises when the body is not JSON. *)
Record Response : Type := mkResponse {
  status_code : Z;
  json : exn + pyval;
  text : string
}.

(** The [requests] library over some network: each call raises (no
    connection, time-out, ...) or returns the server's response. *)
Record Requests : Type := mkRequests {
  get : string -> exn + Response;
  post : string -> pyval -> list (string * string) -> exn + Response
}.

Definition requests_get (requests : Requests) (url : string)
  : Client Response :=
  emit (HttpGet url) ;; lift (get requests url).

Definition requests_post (requests : Requests) (url : string)
    (payload : pyval) (headers : list (string * string)) : Client Response :=
  emit (HttpPost url payload headers) ;;
  lift (post requests url payload headers).

(** ** Python on JSON values *)

Definition nl : string := String (ascii_of_nat 10) "".

(** [s * n]. *)
Fixpoint repeat_str (s : string) (n : nat) : string :=
  match n with
  | O => ""
  | S n' => s ++ repeat_str s n'
  end.

Definition string_of_nat (n : nat) : string :=
  NilZero.string_of_uint (Nat.to_uint n).

(** [type(v).__name__]. *)
Definition type_name (v : pyval) : string :=
  match v with
  | PNone => "NoneType"
  | PBool _ => "bool"
  | PInt _ => "int"
  | PStr _ => "str"
  | PList _ => "list"
  | PDict _ => "dict"
  end.

(** Truthiness of a value. *)
Definition truthy (v : pyval) : bool :=
  match v with
  | PNone => false
  | PBool b => b
  | PInt n => negb (Z.eqb n 0)
  | PStr s => negb (String.eqb s "")
  | PList items => match items with [] => false | _ :: _ => true end
  | PDict entries => match entries with [] => false | _ :: _ => true end
  end.

(** [v[key]] for a string key: the entry of a dict, [KeyError] when the
    dict has no such key, [TypeError] when [v] is not a dict (messages as
    CPython 3.11 words them). *)
Definition getitem (v : pyval) (key : string) : exn + pyval :=
  match v with
  | PDict d =>
      match dict_get key d with
      | Some x => inr x
      | None => inl (PyException "KeyError" ("'" ++ key ++ "'"))
      end
  | PList _ =>
      inl (PyException "TypeError"
             "list indices must be integers or slices, not str")
  | PStr _ =>
      inl (PyException "TypeError"
             "string indices must be integers, not 'str'")
  | _ =>
      inl (PyException "TypeError"
             ("'" ++ type_name v ++ "' object is not subscriptable"))
  end.

(** [v.get(key)]: [None] for a missing key; only a dict has the method. *)
Definition get_method (v : pyval) (key : string) : exn + pyval :=
  match v with
  | PDict d =>
      match dict_get key d with
      | Some x => inr x
      | None => inr PNone
      end
  | _ =>
      inl (PyException "AttributeError"
             ("'" ++ type_name v ++ "' object has no attribute 'get'"))
  end.

(** [d[key] = value]: the entry is replaced in place, or added at the end. *)
Fixpoint dict_set (key : string) (value : pyval) (d : list (string * pyval))
  : list (string * pyval) :=
  match d with
  | [] => [(key, value)]
  | (k, v) :: rest =>
      if String.eqb k key then (k, value) :: rest
      else (k, v) :: dict_set key value rest
  end.

(** ** The tests *)

Definition API_BASE_URL : string := "http://localhost:8003".

Definition test_health (requests : Requests) : Client bool :=
  print [Lit "🏥 Testing health endpoint..."] ;;
  try_except
    (response <- requests_get requests (API_BASE_URL ++ "/health") ;;
     print [Lit ("Status: " ++ string_of_Z (status_code response))] ;;
     body <- lift (json response) ;;
     print [Lit "Response: "; Str body] ;;
     ret (Z.eqb (status_code response) 200))
    (fun e =>
       print [Lit ("Health check failed: " ++ str e)] ;;
       ret false).

Definition test_root (requests : Requests) : Client bool :=
  print [Lit (nl ++ "🏠 Testing root endpoint...")] ;;
  try_except
    (response <- requests_get requests (API_BASE_URL ++ "/") ;;
     print [Lit ("Status: " ++ string_of_Z (status_code response))] ;;
     body <- lift (json response) ;;
     print [Lit "Response: "; JsonIndent2 body] ;;
     ret (Z.eqb (status_code response) 200))
    (fun e =>
       print [Lit ("Root endpoint test failed: " ++ str e)] ;;
       ret false).

(** The [payload] dict of [test_chat]. *)
Definition chat_payload (message : string) (session_id user_id : option string)
  : list (string * pyval) :=
  let payload := [("message", PStr message)] in
  let payload :=
    if truthy_str session_id
    then dict_set "session_id" (opt_str session_id) payload
    else payload in
  let payload :=
    if truthy_str user_id
    then dict_set "user_id" (opt_str user_id) payload
    else payload in
  payload.

Definition json_headers : list (string * string) :=
  [("Content-Type", "application/json")].

Definition test_chat (requests : Requests) (message : string)
    (session_id user_id : option string) : Client bool :=
  print [Lit (nl ++ "💬 Testing chat with message: '" ++ message ++ "'")] ;;
  try_except
    (let payload := chat_payload message session_id user_id in
     response <- requests_post requests (API_BASE_URL ++ "/chat")
                   (PDict payload) json_headers ;;
     print [Lit ("Status: " ++ string_of_Z (status_code response))] ;;
     if Z.eqb (status_code response) 200 then
       result <- lift (json response) ;;
       answer <- lift (getitem result "response") ;;
       print [Lit "Response: "; Str answer] ;;
       calls <- lift (get_method result "tool_calls") ;;
       (if truthy calls then
          listed <- lift (getitem result "tool_calls") ;;
          print [Lit "Tool Calls: "; JsonIndent2 listed]
        else ret tt) ;;
       responses <- lift (get_method result "tool_responses") ;;
       (if truthy responses then
          listed <- lift (getitem result "tool_responses") ;;
          print [Lit "Tool Responses: "; JsonIndent2 listed]
        else ret tt) ;;
       ret true
     else
       print [Lit ("Error: " ++ text response)] ;;
       ret false)
    (fun e =>
       print [Lit ("Chat test failed: " ++ str e)] ;;
       ret false).

Definition test_weather_query (requests : Requests) : Client bool :=
  test_chat requests "What's the weather like in New York today?" None None.

Definition test_airbnb_query (requests : Requests) : Client bool :=
  test_chat requests "Find me an Airbnb in San Francisco for next weekend"
    None None.

Definition test_complex_query (requests : Requests) : Client bool :=
  test_chat requests
    ("I'm planning a trip to Tokyo. Can you check the weather there "
     ++ "and find me some accommodation options?")
    None None.

(** The [tests] list of [main]. *)
Definition tests (requests : Requests) : list (string * Client bool) :=
  [("Simple greeting", test_chat requests "Hello, how are you?" None None);
   ("Weather query", test_weather_query requests);
   ("Airbnb query", test_airbnb_query requests);
   ("Complex query", test_complex_query requests)].

(** [for test_name, test_func in tests: ...], on the list [results]. *)
Fixpoint run_tests (remaining : list (string * Client bool))
    (results : list (string * bool)) : Client (list (string * bool)) :=
  match remaining with
  | [] => ret results
  | (test_name, test_func) :: rest =>
      print [Lit (nl ++ "📝 " ++ test_name)] ;;
      print [Lit (repeat_str "-" 30)] ;;
      success <- test_func ;;
      let results := (results ++ [(test_name, success)])%list in
      sleep 1 ;;
      run_tests rest results
  end.

Definition summary_line (result : string * bool) : Client unit :=
  let '(test_name, success) := result in
  let status := if success then "✅ PASS" else "❌ FAIL" in
  print [Lit (status ++ " - " ++ test_name)].

Definition overall_line (results : list (string * bool)) : list piece :=
  let passed := List.length (filter (fun r => snd r) results) in
  let total := List.length results in
  [Lit (nl ++ "Overall: " ++ string_of_nat passed ++ "/"
        ++ string_of_nat total ++ " tests passed")].

Definition main (requests : Requests) : Client unit :=
  print [Lit "🚀 Starting Host Agent API Tests"] ;;
  print [Lit (repeat_str "=" 50)] ;;
  health_ok <- test_health requests ;;
  root_ok <- test_root requests ;;
  if negb health_ok then
    print [Lit ("❌ Health check failed. Make sure the service is running "
                ++ "and accessible.")]
    (* return *)
  else
    print [Lit (nl ++ repeat_str "=" 50)] ;;
    print [Lit "🧪 Testing Chat Functionality"] ;;
    results <- run_tests (tests requests) [] ;;
    print [Lit (nl ++ repeat_str "=" 50)] ;;
    print [Lit "📊 Test Results Summary"] ;;
    print [Lit (repeat_str "=" 50)] ;;
    for_each results summary_line ;;
    print (overall_line results).

(** ** Vocabulary for the properties of the script *)

(** The HTTP requests among the things the script did, in order. *)
Definition is_request (ev : client_event) : bool :=
  match ev with
  | HttpGet _ | HttpPost _ _ _ => true
  | _ => false
  end.

Definition requests_made (events : list client_event) : list client_event :=
  filter is_request events.

Definition is_sleep (ev : client_event) : bool :=
  match ev with
  | Slept _ => true
  | _ => false
  end.


(** Whether [response] is what [test_health] and [test_root] accept: a
    JSON body with status 200. *)
Definition get_passes (r : exn + Response) : bool :=
  match r with
  | inr response =>
      match json response with
      | inr _ => Z.eqb (status_code response) 200
      | inl _ => false
      end
  | inl _ => false
  end.

(** Whether [response] is what [test_chat] accepts: status 200 and a JSON
    object with a ["response"] entry. *)
Definition chat_passes (r : exn + Response) : bool :=
  match r with
  | inr response =>
      Z.eqb (status_code response) 200
      && match json response with
         | inr (PDict d) =>
             match dict_get "response" d with
             | Some _ => true
             | None => false
             end
         | _ => false
         end
  | inl _ => false
  end.


(** The outcome of the POST of [test_chat] for [message]. *)
Definition chat_outcome (requests : Requests) (message : string)
  : exn + Response :=
  post requests (API_BASE_URL ++ "/chat")
    (PDict (chat_payload message None None)) json_headers.


(** What each test does when it starts with nothing done yet. *)
Definition health_events (requests : Requests) : list client_event :=
  snd (test_health requests []).

Definition root_events (requests : Requests) : list client_event :=
  snd (test_root requests []).

Definition chat_events (requests : Requests) (message : string)
    (session_id user_id : option string) : list client_event :=
  snd (test_chat requests message session_id user_id []).






(** How a server's reply reaches the script: its status, its body as
    JSON, and the text of that body. *)
Definition response_of (reply : HttpReply) (body_text : string) : Response :=
  {| status_code := http_status reply;
     json := inr (http_body reply);
     text := body_text |}.

(** ** Sample networks *)

Definition connection_refused : exn :=
  PyException "ConnectionError" "Connection refused".


Definition healthy_body : pyval :=
  PDict [("status", PStr "healthy");
         ("service", PStr "a2a-host-agent");
         ("version", PStr "1.0.0")].

(** A server that is healthy, answers the greeting and the weather query,
    and fails with 500 on anything else. *)
Definition partial_network : Requests :=
  {| get := fun _ =>
       inr {| status_code := 200; json := inr healthy_body; text := "{}" |};
     post := fun _ payload _ =>
       match payload with
       | PDict [("message", PStr m)] =>
           if String.eqb m "Hello, how are you?"
              || String.eqb m "What's the weather like in New York today?"
           then inr {| status_code := 200;
                       json := inr (PDict [("response", PStr "Hi.");
                                           ("tool_calls", PList []);
                                           ("tool_responses", PList [])]);
                       text := "{}" |}
           else inr {| status_code := 500;
                       json := inr (PDict [("detail", PStr "boom")]);
                       text := "{}" |}
       | _ => inl connection_refused
       end |}.

(** A network that reaches the service run by [runner]: a POST with a
    message is answered with the reply of [POST /chat] for it. *)
Definition service_network (runner : Runner) : Requests :=
  {| get := fun _ =>
       inr {| status_code := 200; json := inr healthy_body; text := "{}" |};
     post := fun _ payload _ =>
       match payload with
       | PDict d =>
           match dict_get "message" d with
           | Some (PStr m) =>
               inr (response_of
                      (fst (POST_chat runner (mkChatRequest m) [])) "{}")
           | _ => inl connection_refused
           end
       | _ => inl connection_refused
       end |}.

End TestHostApi.

(** * [/chat/stream] with its serialiser *)

(** Every [yield] of [generate_stream] first calls [json.dumps] on the
    mapping it is about to send, inside the [try].  The definitions above
    keep the mappings and leave the call out; here the call is in, so a
    mapping [json.dumps] rejects ends the stream through the handler. *)
Module JsonStream.

(** The [json] module [chat_stream] imports: [json.dumps(data)] returns the
    text of [data] or raises (a value that is not JSON, an integer beyond
    the digit limit, ...). *)
Record Json : Type := mkJson {
  dumps : pyval -> exn + string
}.

(** [yield f"data: {json.dumps(data)}\n\n"]: the frame of [data] is
    yielded once [json.dumps] has returned its text. *)
Definition yield_data (json : Json) (data : pyval) : Gen unit :=
  text <- lift (dumps json data) ;;
  yield (Frame data).

(** The body of [for part in event.content.parts] in [generate_stream]. *)
Definition stream_part (json : Json) (part : Part) : Gen unit :=
  match function_call part with
  | Some fc =>
      let data :=
        PDict [("type", PStr "tool_call");
               ("name", opt_str (fc_name fc));
               ("arguments", PDict (model_dump_exclude_none fc))] in
      yield_data json data
  | None =>
      match function_response part with
      | Some fr =>
          let response_content := fr_response fr in
          let formatted_response_data :=
            match response_content with
            | PDict d =>
                match dict_get "response" d with
                | Some nested => nested
                | None => response_content
                end
            | _ => response_content
            end in
          let data :=
            PDict [("type", PStr "tool_response");
                   ("name", opt_str (fr_name fr));
                   ("response", formatted_response_data)] in
          yield_data json data
      | None => ret tt
      end
  end.

(** The [async for event in events_iterator] loop of [generate_stream]. *)
Fixpoint stream_events (json : Json) (events_iterator : list step)
  : Gen unit :=
  match events_iterator with
  | [] => ret tt
  | Throw e :: _ => raise e
  | Next event :: rest =>
      match truthy_parts event with
      | Some ps => for_each ps (stream_part json)
      | None => ret tt
      end ;;
      if is_final_response event then
        let final_response :=
          match truthy_parts event with
          | Some ps => join_text ps
          | None => if escalates event then escalation_text event else ""
          end in
        let data :=
          PDict [("type", PStr "final_response");
                 ("response", PStr final_response)] in
        (* break *)
        yield_data json data
      else stream_events json rest
  end.

Definition generate_stream (json : Json) (runner : Runner)
    (request : ChatRequest) : Gen unit :=
  try_except
    (events_iterator <-
       lift (run_async runner USER_ID SESSION_ID
               (user_message (message request))) ;;
     stream_events json events_iterator)
    (fun e =>
       let error_data :=
         PDict [("type", PStr "error"); ("error", PStr (str e))] in
       yield_data json error_data).

Definition chat_stream (json : Json) (runner : Runner)
    (request : ChatRequest) : StreamingResponse :=
  {| body_iterator := generate_stream json runner request;
     status_code_of := 200;
     media_type := "text/plain" |}.

(** Sending the streamed body: the generator is consumed from a fresh
    start. *)
Definition run_stream (json : Json) (runner : Runner) (request : ChatRequest)
  : (exn + unit) * list frame :=
  body_iterator (chat_stream json runner request) [].

(** [json.dumps] accepts the mapping of the frame. *)
Definition serialises (json : Json) (f : frame) : Prop :=
  match f with
  | Frame data => exists text : string, dumps json data = inr text
  end.

(** ** A sample serialiser *)

(** Whether a value holds an integer of more than 4300 decimal digits,
    CPython's default limit for turning an [int] into text. *)
Fixpoint has_huge_int (v : pyval) : bool :=
  match v with
  | PInt n => Z.leb (10 ^ 4300) (Z.abs n)
  | PList items => existsb has_huge_int items
  | PDict entries =>
      existsb (fun entry => let '(_, value) := entry in has_huge_int value)
        entries
  | _ => false
  end.

Definition digit_limit_error : exn :=
  PyException "ValueError"
    ("Exceeds the limit (4300 digits) for integer string conversion; "
     ++ "use sys.set_int_max_str_digits() to increase the limit").

(** A [json] module that rejects a value holding such an integer and
    returns a text for any other value (the text itself plays no part:
    a placeholder stands for it). *)
Definition digit_limit_json : Json :=
  {| dumps := fun data =>
       if has_huge_int data then inl digit_limit_error else inr "{}" |}.

(** A tool result whose payload is an integer of 5001 digits. *)
Definition huge_result : FunctionResponse :=
  {| fr_name := Some "send_message"; fr_response := PInt (10 ^ 5000) |}.

Definition huge_result_event : Event :=
  event_of [{| text := None;
               function_call := None;
               function_response := Some huge_result |}] false.

(** The sample conversation with that tool result in place of the usual
    one: the reply event is still reached by the iterator. *)
Definition huge_runner : Runner :=
  runner_of (inr (map Next [call_event; huge_result_event]
                  ++ [Next reply_event])%list).

End JsonStream.

(** * Properties *)

(** ** The loops, step by step *)

Lemma string_append_nil_r (s : string) : s ++ "" = s.
Proof.
  induction s as [| c s IH]; simpl; [reflexivity | now rewrite IH].
Qed.

Lemma concat_empty_cons (x : string) (xs : list string) :
  String.concat "" (x :: xs) = x ++ String.concat "" xs.
Proof.
  destruct xs as [| y ys]; simpl.
  - now rewrite string_append_nil_r.
  - reflexivity.
Qed.

(** Joining only the parts with truthy text is joining every part's text:
    a part without text, or with empty text, contributes nothing. *)
Lemma join_text_all (ps : list Part) :
  join_text ps = String.concat "" (map part_text ps).
Proof.
  unfold join_text.
  induction ps as [| p ps IH]; [reflexivity |].
  cbn [filter map]. rewrite (concat_empty_cons (part_text p)), <- IH.
  unfold truthy_str, part_text.
  destruct (text p) as [t |] eqn:Ht; [| reflexivity].
  destruct (String.eqb_spec t "") as [-> | _]; cbn [negb].
  - reflexivity.
  - cbn [map]. now rewrite concat_empty_cons, Ht.
Qed.

Lemma record_part_spec (part : Part) (tc tr : list pyval) :
  record_part (tc, tr) part
  = ((tc ++ part_tool_calls part)%list, (tr ++ part_tool_responses part)%list).
Proof.
  unfold record_part, part_tool_calls, part_tool_responses,
    tool_call_record, tool_response_record, kept_response.
  destruct (function_call part) as [fc |].
  - now rewrite app_nil_r.
  - destruct (function_response part) as [fr |].
    + now rewrite app_nil_r.
    + now rewrite !app_nil_r.
Qed.

Lemma record_parts_spec (ps : list Part) : forall tc tr : list pyval,
  fold_left record_part ps (tc, tr)
  = ((tc ++ flat_map part_tool_calls ps)%list,
     (tr ++ flat_map part_tool_responses ps)%list).
Proof.
  induction ps as [| p ps IH]; intros tc tr; cbn [fold_left flat_map].
  - now rewrite !app_nil_r.
  - now rewrite record_part_spec, IH, <- !app_assoc.
Qed.

(** What one event adds to the two lists of [get_response_from_agent]. *)
Lemma record_event_spec (event : Event) (tc tr : list pyval) :
  match truthy_parts event with
  | Some ps => fold_left record_part ps (tc, tr)
  | None => (tc, tr)
  end
  = ((tc ++ event_tool_calls event)%list,
     (tr ++ event_tool_responses event)%list).
Proof.
  unfold event_tool_calls, event_tool_responses, event_parts.
  destruct (truthy_parts event) as [ps |].
  - apply record_parts_spec.
  - cbn [flat_map]. now rewrite !app_nil_r.
Qed.

(** The reply computed at the first final event. *)
Lemma final_reply_spec (event : Event) :
  match truthy_parts event with
  | Some ps => join_text ps
  | None => if escalates event then escalation_text event else ""
  end = final_reply event.
Proof.
  unfold final_reply, event_parts.
  destruct (truthy_parts event) as [ps |] eqn:Hps; [| reflexivity].
  rewrite join_text_all.
  destruct ps as [| p ps]; [| reflexivity].
  unfold truthy_parts in Hps.
  destruct (content event) as [c |]; [| discriminate].
  destruct (parts c) as [[| q qs] |]; discriminate.
Qed.

(** Events that are not final are consumed one after the other, each
    adding its records at the end of the lists. *)
Lemma consume_events_prefix (pre : list Event) :
  Forall not_final pre ->
  forall (rest : list step) (tc tr : list pyval) (reply : string),
    consume_events (map Next pre ++ rest) tc tr reply
    = consume_events rest
        (tc ++ flat_map event_tool_calls pre)
        (tr ++ flat_map event_tool_responses pre) reply.
Proof.
  induction 1 as [| event pre Hev _ IH]; intros rest tc tr reply.
  - cbn [map app flat_map]. now rewrite !app_nil_r.
  - cbn [map app flat_map consume_events].
    rewrite record_event_spec, Hev, IH, <- !app_assoc. reflexivity.
Qed.

(** At a final event the loop stops: what follows plays no part. *)
Lemma consume_events_final (fin : Event) (suf : list step)
    (tc tr : list pyval) :
  is_final_response fin = true ->
  consume_events (Next fin :: suf) tc tr ""
  = ret {| result_response := final_reply fin;
           result_tool_calls := tc ++ event_tool_calls fin;
           result_tool_responses := tr ++ event_tool_responses fin |}.
Proof.
  intros Hfin. cbn [consume_events].
  now rewrite record_event_spec, Hfin, final_reply_spec.
Qed.

(** The same for the generator: the frames of one part, of the parts of
    one event, and of a run of events that are not final. *)
Lemma stream_part_spec (part : Part) (out : list frame) :
  stream_part part out = (inr tt, (out ++ part_frames part)%list).
Proof.
  unfold stream_part, part_frames, tool_call_frame, tool_response_frame,
    kept_response, yield, emit, ret.
  destruct (function_call part) as [fc |]; [reflexivity |].
  destruct (function_response part) as [fr |]; [reflexivity |].
  now rewrite app_nil_r.
Qed.

Lemma stream_parts_spec (ps : list Part) : forall out : list frame,
  for_each ps stream_part out = (inr tt, (out ++ flat_map part_frames ps)%list).
Proof.
  induction ps as [| p ps IH]; intros out; cbn [for_each flat_map].
  - unfold ret. now rewrite app_nil_r.
  - unfold bind. now rewrite stream_part_spec, IH, <- app_assoc.
Qed.

Lemma stream_event_spec (event : Event) (out : list frame) :
  match truthy_parts event with
  | Some ps => for_each ps stream_part
  | None => ret tt
  end out = (inr tt, (out ++ event_frames event)%list).
Proof.
  unfold event_frames, event_parts.
  destruct (truthy_parts event) as [ps |].
  - apply stream_parts_spec.
  - unfold ret. cbn [flat_map]. now rewrite app_nil_r.
Qed.

Lemma stream_events_prefix (pre : list Event) :
  Forall not_final pre ->
  forall (rest : list step) (out : list frame),
    stream_events (map Next pre ++ rest) out
    = stream_events rest (out ++ flat_map event_frames pre)%list.
Proof.
  induction 1 as [| event pre Hev _ IH]; intros rest out.
  - cbn [map app flat_map]. now rewrite app_nil_r.
  - cbn [map app flat_map stream_events]. unfold bind at 1.
    rewrite stream_event_spec, Hev, IH, <- app_assoc. reflexivity.
Qed.

Lemma stream_events_final (fin : Event) (suf : list step) (out : list frame) :
  is_final_response fin = true ->
  stream_events (Next fin :: suf) out
  = (inr tt,
     (out ++ event_frames fin
      ++ [final_response_frame (final_reply fin)])%list).
Proof.
  intros Hfin. cbn [stream_events]. unfold bind.
  rewrite stream_event_spec, Hfin, final_reply_spec.
  unfold yield, emit, final_response_frame. now rewrite <- app_assoc.
Qed.

(** Tool frames are neither final-response frames nor error frames. *)
Lemma part_frames_types (part : Part) (ty : string) :
  ty = "final_response" \/ ty = "error" ->
  filter (has_type ty) (part_frames part) = [].
Proof.
  intros Hty. unfold part_frames.
  destruct (function_call part) as [fc |];
    [| destruct (function_response part) as [fr |]];
    destruct Hty as [-> | ->]; reflexivity.
Qed.

Lemma event_frames_types (event : Event) (ty : string) :
  ty = "final_response" \/ ty = "error" ->
  filter (has_type ty) (event_frames event) = [].
Proof.
  intros Hty. unfold event_frames.
  induction (event_parts event) as [| p ps IH]; [reflexivity |].
  cbn [flat_map]. now rewrite filter_app, part_frames_types, IH.
Qed.

Lemma events_frames_types (events : list Event) (ty : string) :
  ty = "final_response" \/ ty = "error" ->
  count_type ty (flat_map event_frames events) = 0.
Proof.
  intros Hty. unfold count_type.
  induction events as [| event events IH]; [reflexivity |].
  cbn [flat_map]. rewrite filter_app, length_app, IH.
  now rewrite event_frames_types.
Qed.

Lemma count_type_app (ty : string) (fs gs : list frame) :
  count_type ty (fs ++ gs) = count_type ty fs + count_type ty gs.
Proof.
  unfold count_type. now rewrite filter_app, length_app.
Qed.

(** Every list of events is cut at its first final event, if it has one. *)
Lemma first_final_split (events : list Event) :
  Forall not_final events
  \/ exists pre fin suf,
       events = (pre ++ fin :: suf)%list
       /\ Forall not_final pre /\ is_final_response fin = true.
Proof.
  induction events as [| event events IH].
  - left. constructor.
  - destruct (is_final_response event) eqn:Hev.
    + right. exists [], event, events. repeat split; [constructor | exact Hev].
    + destruct IH as [Hall | (pre & fin & suf & -> & Hpre & Hfin)].
      * left. now constructor.
      * right. exists (event :: pre), fin, suf.
        repeat split; [now constructor | exact Hfin].
Qed.

Lemma through_final_none (events : list Event) :
  Forall not_final events -> through_final events = events.
Proof.
  induction 1 as [| event events Hev _ IH]; [reflexivity |].
  cbn [through_final]. now rewrite Hev, IH.
Qed.

Lemma through_final_split (pre : list Event) (fin : Event) (suf : list Event) :
  Forall not_final pre -> is_final_response fin = true ->
  through_final (pre ++ fin :: suf) = (pre ++ [fin])%list.
Proof.
  induction 1 as [| event pre Hev _ IH]; intros Hfin; cbn [app through_final].
  - now rewrite Hfin.
  - now rewrite Hev, IH.
Qed.

(** ** Runs of [/chat] *)

Section ChatRuns.

Variable runner : Runner.
Variable request : ChatRequest.

Lemma chat_returns (items : list step) (result : AgentResult)
    (out : list output) :
  run_outcome runner (message request) = inr items ->
  consume_events items [] [] "" out = (inr result, out) ->
  chat runner request out
  = (inr {| response := result_response result;
            tool_calls := Some (result_tool_calls result);
            tool_responses := Some (result_tool_responses result) |}, out).
Proof.
  unfold run_outcome. intros Hrun Hloop.
  unfold chat, get_response_from_agent, try_except, bind, lift.
  now rewrite Hrun, Hloop.
Qed.

Lemma chat_raises (e : exn) (out : list output) :
  run_outcome runner (message request) = inl e
  \/ (exists items, run_outcome runner (message request) = inr items
                    /\ consume_events items [] [] "" out = (inl e, out)) ->
  chat runner request out
  = (inl (HTTPException 500 ("Error processing request: " ++ str e)),
     (out ++ agent_error_log e)%list).
Proof.
  unfold run_outcome. intros Hrun.
  unfold chat, get_response_from_agent, try_except, bind, lift.
  destruct Hrun as [-> | (items & -> & ->)];
    unfold print, traceback_print_exc, emit, raise, agent_error_log;
    now rewrite <- app_assoc.
Qed.

Lemma chat_on_final (pre : list Event) (fin : Event) (suf : list step)
    (out : list output) :
  run_outcome runner (message request)
  = inr (map Next pre ++ Next fin :: suf)%list ->
  Forall not_final pre -> is_final_response fin = true ->
  chat runner request out
  = (inr {| response := final_reply fin;
            tool_calls :=
              Some (flat_map event_tool_calls (pre ++ [fin]));
            tool_responses :=
              Some (flat_map event_tool_responses (pre ++ [fin])) |}, out).
Proof.
  intros Hrun Hpre Hfin.
  rewrite !flat_map_app. cbn [flat_map]. rewrite !app_nil_r.
  apply (chat_returns _
           (mkAgentResult (final_reply fin)
              (flat_map event_tool_calls pre ++ event_tool_calls fin)
              (flat_map event_tool_responses pre ++ event_tool_responses fin))
           _ Hrun).
  now rewrite consume_events_prefix, consume_events_final.
Qed.

Lemma chat_on_exhausted (events : list Event) (out : list output) :
  run_outcome runner (message request) = inr (map Next events) ->
  Forall not_final events ->
  chat runner request out
  = (inr {| response := "";
            tool_calls := Some (flat_map event_tool_calls events);
            tool_responses := Some (flat_map event_tool_responses events) |},
     out).
Proof.
  intros Hrun Hall.
  apply (chat_returns _
           (mkAgentResult "" (flat_map event_tool_calls events)
              (flat_map event_tool_responses events)) _ Hrun).
  rewrite <- (app_nil_r (map Next events)).
  now rewrite consume_events_prefix.
Qed.

Lemma chat_on_throw (pre : list Event) (e : exn) (rest : list step)
    (out : list output) :
  run_outcome runner (message request)
  = inr (map Next pre ++ Throw e :: rest)%list ->
  Forall not_final pre ->
  chat runner request out
  = (inl (HTTPException 500 ("Error processing request: " ++ str e)),
     (out ++ agent_error_log e)%list).
Proof.
  intros Hrun Hpre. apply chat_raises. right.
  eexists; split; [exact Hrun |].
  now rewrite consume_events_prefix.
Qed.

End ChatRuns.

(** ** Runs of [/chat/stream] *)

Section StreamRuns.

Variable runner : Runner.
Variable request : ChatRequest.

Lemma stream_returns (items : list step) (fs : list frame) :
  run_outcome runner (message request) = inr items ->
  stream_events items [] = (inr tt, fs) ->
  run_stream runner request = (inr tt, fs).
Proof.
  unfold run_outcome. intros Hrun Hloop.
  unfold run_stream, chat_stream. cbn [body_iterator].
unfold generate_stream, try_except, bind, lift.
  now rewrite Hrun, Hloop.
Qed.

Lemma stream_on_final (pre : list Event) (fin : Event) (suf : list step) :
  run_outcome runner (message request)
  = inr (map Next pre ++ Next fin :: suf)%list ->
  Forall not_final pre -> is_final_response fin = true ->
  run_stream runner request
  = (inr tt,
     (flat_map event_frames (pre ++ [fin])
      ++ [final_response_frame (final_reply fin)])%list).
Proof.
  intros Hrun Hpre Hfin.
  rewrite flat_map_app. cbn [flat_map]. rewrite app_nil_r, <- app_assoc.
  apply (stream_returns _ _ Hrun).
  now rewrite stream_events_prefix, stream_events_final.
Qed.

Lemma stream_on_exhausted (events : list Event) :
  run_outcome runner (message request) = inr (map Next events) ->
  Forall not_final events ->
  run_stream runner request = (inr tt, flat_map event_frames events).
Proof.
  intros Hrun Hall.
  apply (stream_returns _ _ Hrun).
  rewrite <- (app_nil_r (map Next events)).
  now rewrite stream_events_prefix.
Qed.

Lemma stream_on_throw (pre : list Event) (e : exn) (rest : list step) :
  run_outcome runner (message request)
  = inr (map Next pre ++ Throw e :: rest)%list ->
  Forall not_final pre ->
  run_stream runner request
  = (inr tt, (flat_map event_frames pre ++ [error_frame e])%list).
Proof.
  unfold run_outcome. intros Hrun Hpre.
  unfold run_stream, chat_stream. cbn [body_iterator].
unfold generate_stream, try_except, bind, lift.
  rewrite Hrun, stream_events_prefix by assumption.
  reflexivity.
Qed.

Lemma stream_on_refusal (e : exn) :
  run_outcome runner (message request) = inl e ->
  run_stream runner request = (inr tt, [error_frame e]).
Proof.
  unfold run_outcome. intros Hrun.
  unfold run_stream, chat_stream. cbn [body_iterator].
unfold generate_stream, try_except, bind, lift.
  now rewrite Hrun.
Qed.

End StreamRuns.

(** ** The sample conversations, run *)

Example chat_sample_run :
  chat sample_runner hello []
  = (inr {| response := "Sunny in Tokyo.";
            tool_calls :=
              Some [PDict [("name", PStr "send_message");
                           ("arguments",
                            PDict [("id", PStr "call-1");
                                   ("args", PDict [("city", PStr "Tokyo")]);
                                   ("name", PStr "send_message")])]];
            tool_responses :=
              Some [PDict [("name", PStr "send_message");
                           ("response", PStr "X")]] |},
     []).
Proof. reflexivity. Qed.

Example stream_sample_run :
  run_stream sample_runner hello
  = (inr tt,
     [tool_call_frame weather_call;
      tool_response_frame weather_result (PStr "X");
      final_response_frame "Sunny in Tokyo."]).
Proof. reflexivity. Qed.

Example chat_bare_escalation_run :
  chat (runner_of (inr [Next bare_escalation])) hello []
  = (inr {| response := "Agent escalated: No specific message.";
            tool_calls := Some [];
            tool_responses := Some [] |},
     []).
Proof. reflexivity. Qed.

Example through_final_sample :
  through_final sample_events = [call_event; result_event; reply_event].
Proof. reflexivity. Qed.

Example stream_reply_only_run :
  run_stream (runner_of (inr [Next reply_event])) hello
  = (inr tt, [final_response_frame "Sunny in Tokyo."]).
Proof. reflexivity. Qed.

Example post_chat_broken_run :
  fst (POST_chat broken_runner hello [])
  = {| http_status := 500;
       http_body :=
         PDict [("detail",
                 PStr ("Error processing request: "
                       ++ "Session not found: default_session"))] |}.
Proof. reflexivity. Qed.

(** ** The claims *)

(** C1.  Whenever [/chat] answers (the runner's sequence ends, or holds a
    final-flagged event, before anything is raised), the [tool_calls] and
    [tool_responses] of the response are the records of the function-call
    and function-response parts of the events up to and including the
    first final-flagged one, one record per part, in arrival order.  What
    the runner would hand over after that event ([tail], and the events
    [through_final] drops) is not reflected. *)
Theorem C1_chat_lists_reflect_events_through_first_final
    (runner : Runner) (request : ChatRequest)
    (events : list Event) (tail : list step) (out : list output) :
  run_outcome runner (message request) = inr (map Next events ++ tail)%list ->
  tail = [] \/ Exists is_final events ->
  exists reply : string,
    chat runner request out
    = (inr {| response := reply;
              tool_calls :=
                Some (flat_map event_tool_calls (through_final events));
              tool_responses :=
                Some (flat_map event_tool_responses (through_final events)) |},
       out).
Proof.
  intros Hrun Hshape.
  destruct (first_final_split events)
    as [Hall | (pre & fin & suf & -> & Hpre & Hfin)].
  - destruct Hshape as [-> | Hex].
    + rewrite app_nil_r in Hrun. rewrite through_final_none by assumption.
      exists "". now apply chat_on_exhausted.
    + exfalso. apply Exists_exists in Hex. destruct Hex as (ev & Hin & Hev).
      rewrite Forall_forall in Hall. specialize (Hall ev Hin).
      unfold not_final in Hall. unfold is_final in Hev. congruence.
  - rewrite through_final_split by assumption.
    exists (final_reply fin).
    apply (chat_on_final runner request pre fin (map Next suf ++ tail)%list);
      [| assumption | assumption].
    rewrite Hrun, map_app, <- app_assoc. reflexivity.
Qed.

Lemma C1_chat_lists_witness :
  run_outcome sample_runner (message hello)
  = inr (map Next sample_events ++ [Throw session_missing])%list
  /\ ([Throw session_missing] = [] \/ Exists is_final sample_events)
  /\ exists reply : string,
       chat sample_runner hello []
       = (inr {| response := reply;
                 tool_calls :=
                   Some (flat_map event_tool_calls
                           (through_final sample_events));
                 tool_responses :=
                   Some (flat_map event_tool_responses
                           (through_final sample_events)) |},
          []).
Proof.
  assert (Hrun : run_outcome sample_runner (message hello)
                 = inr (map Next sample_events ++ [Throw session_missing])%list)
    by reflexivity.
  assert (Hshape : [Throw session_missing] = []
                   \/ Exists is_final sample_events).
  { right. apply Exists_cons_tl, Exists_cons_tl, Exists_cons_hd. reflexivity. }
  split; [exact Hrun |]. split; [exact Hshape |].
  exact (C1_chat_lists_reflect_events_through_first_final
           sample_runner hello sample_events [Throw session_missing] []
           Hrun Hshape).
Defined.

(** C2, on the code.  A final event that escalates without an error
    message and whose only part is a tool result carries no text, yet the
    reply of [/chat] is the empty string, not the escalation line: the
    handler takes the text branch as soon as the event has parts. *)
Lemma C2_escalation_with_textless_parts_counterexample :
  run_outcome escalating_runner (message hello)
  = inr (map Next [call_event] ++ [Next tool_escalation])%list
  /\ Forall not_final [call_event]
  /\ is_final tool_escalation
  /\ Forall (fun part => text part = None) (event_parts tool_escalation)
  /\ escalates tool_escalation = true
  /\ error_message tool_escalation = None
  /\ exists r : ChatResponse,
       chat escalating_runner hello [] = (inr r, [])
       /\ response r = ""
       /\ response r <> "Agent escalated: No specific message.".
Proof.
  split; [reflexivity |].
  split; [repeat constructor |].
  split; [reflexivity |].
  split; [repeat constructor |].
  split; [reflexivity |].
  split; [reflexivity |].
  eexists. split; [reflexivity |].
  split; [reflexivity | discriminate].
Qed.

(** C2, amended.  When a final-flagged event is reached, the reply of
    [/chat] is determined by the first such event: if it has content
    parts, the reply is the text of its parts concatenated in order (a
    part without text adds nothing, so the reply is empty when no part
    has text); if it has no content parts and signals an escalation, the
    reply is ["Agent escalated: "] followed by the error message, or by
    ["No specific message."] when the error message is absent or empty;
    otherwise the reply is the empty string. *)
Theorem C2_chat_reply_from_first_final
    (runner : Runner) (request : ChatRequest)
    (pre : list Event) (fin : Event) (suf : list step) (out : list output) :
  run_outcome runner (message request)
  = inr (map Next pre ++ Next fin :: suf)%list ->
  Forall not_final pre -> is_final fin ->
  exists r : ChatResponse,
    chat runner request out = (inr r, out)
    /\ (event_parts fin <> [] ->
        response r = String.concat "" (map part_text (event_parts fin)))
    /\ (event_parts fin = [] -> escalates fin = true ->
        (forall m : string,
            error_message fin = Some m -> m <> "" ->
            response r = "Agent escalated: " ++ m)
        /\ (error_message fin = None \/ error_message fin = Some "" ->
            response r = "Agent escalated: No specific message."))
    /\ (event_parts fin = [] -> escalates fin = false -> response r = "").
Proof.
  intros Hrun Hpre Hfin.
  eexists. split; [now apply (chat_on_final runner request pre fin suf) |].
  cbn [response]. unfold final_reply, escalation_text, str_or.
  split; [| split].
  - intros Hparts. destruct (event_parts fin); [congruence | reflexivity].
  - intros Hparts Hesc. rewrite Hparts, Hesc. split.
    + intros m Hm Hne. rewrite Hm.
      destruct (String.eqb_spec m ""); [contradiction | reflexivity].
    + intros [Hm | Hm]; now rewrite Hm.
  - intros Hparts Hesc. now rewrite Hparts, Hesc.
Qed.

Lemma C2_chat_reply_witness :
  run_outcome sample_runner (message hello)
  = inr (map Next [call_event; result_event]
         ++ Next reply_event :: [Next late_event; Throw session_missing])%list
  /\ Forall not_final [call_event; result_event]
  /\ is_final reply_event
  /\ exists r : ChatResponse,
       chat sample_runner hello [] = (inr r, [])
       /\ (event_parts reply_event <> [] ->
           response r
           = String.concat "" (map part_text (event_parts reply_event)))
       /\ (event_parts reply_event = [] -> escalates reply_event = true ->
           (forall m : string,
               error_message reply_event = Some m -> m <> "" ->
               response r = "Agent escalated: " ++ m)
           /\ (error_message reply_event = None
               \/ error_message reply_event = Some "" ->
               response r = "Agent escalated: No specific message."))
       /\ (event_parts reply_event = [] -> escalates reply_event = false ->
           response r = "").
Proof.
  assert (Hrun : run_outcome sample_runner (message hello)
                 = inr (map Next [call_event; result_event]
                        ++ Next reply_event
                           :: [Next late_event; Throw session_missing])%list)
    by reflexivity.
  assert (Hpre : Forall not_final [call_event; result_event])
    by (repeat constructor).
  assert (Hfin : is_final reply_event) by reflexivity.
  split; [exact Hrun |]. split; [exact Hpre |]. split; [exact Hfin |].
  exact (C2_chat_reply_from_first_final sample_runner hello
           [call_event; result_event] reply_event
           [Next late_event; Throw session_missing] [] Hrun Hpre Hfin).
Defined.

(** *** The generator with its serialiser *)

Lemma yield_data_accepted (json : JsonStream.Json) (data : pyval)
    (out : list frame) :
  JsonStream.serialises json (Frame data) ->
  JsonStream.yield_data json data out = (inr tt, (out ++ [Frame data])%list).
Proof.
  intros (text & Htext).
  unfold JsonStream.yield_data, bind, lift, yield, emit. now rewrite Htext.
Qed.

Lemma json_stream_part (json : JsonStream.Json) (part : Part)
    (out : list frame) :
  Forall (JsonStream.serialises json) (part_frames part) ->
  JsonStream.stream_part json part out
  = (inr tt, (out ++ part_frames part)%list).
Proof.
  unfold JsonStream.stream_part, part_frames, tool_call_frame,
    tool_response_frame, kept_response.
  destruct (function_call part) as [fc |];
    [| destruct (function_response part) as [fr |]]; intros Hser.
  - apply yield_data_accepted. now inversion Hser.
  - apply yield_data_accepted. now inversion Hser.
  - unfold ret. now rewrite app_nil_r.
Qed.

Lemma json_stream_parts (json : JsonStream.Json) (ps : list Part) :
  forall out : list frame,
    Forall (JsonStream.serialises json) (flat_map part_frames ps) ->
    for_each ps (JsonStream.stream_part json) out
    = (inr tt, (out ++ flat_map part_frames ps)%list).
Proof.
  induction ps as [| p ps IH]; intros out Hser; cbn [for_each flat_map] in *.
  - unfold ret. now rewrite app_nil_r.
  - apply Forall_app in Hser. destruct Hser as [Hp Hps].
    unfold bind. now rewrite json_stream_part, IH, <- app_assoc.
Qed.

Lemma json_stream_event (json : JsonStream.Json) (event : Event)
    (out : list frame) :
  Forall (JsonStream.serialises json) (event_frames event) ->
  match truthy_parts event with
  | Some ps => for_each ps (JsonStream.stream_part json)
  | None => ret tt
  end out = (inr tt, (out ++ event_frames event)%list).
Proof.
  unfold event_frames, event_parts.
  destruct (truthy_parts event) as [ps |]; intros Hser.
  - now apply json_stream_parts.
  - unfold ret. cbn [flat_map]. now rewrite app_nil_r.
Qed.

(** What the loop of [generate_stream] yields from a fresh start, one
    event at a time. *)
Lemma stream_events_next (event : Event) (rest : list step)
    (out : list frame) :
  stream_events (Next event :: rest) out
  = if is_final_response event
    then (inr tt,
          (out ++ event_frames event
           ++ [final_response_frame (final_reply event)])%list)
    else stream_events rest (out ++ event_frames event)%list.
Proof.
  cbn [stream_events]. unfold bind. rewrite stream_event_spec.
  destruct (is_final_response event); [| reflexivity].
  rewrite final_reply_spec. unfold yield, emit, final_response_frame.
  now rewrite <- app_assoc.
Qed.

Lemma stream_events_from (items : list step) : forall out : list frame,
  stream_events items out
  = (fst (stream_events items []),
     (out ++ snd (stream_events items []))%list).
Proof.
  induction items as [| [event | e] items IH]; intros out.
  - cbn. now rewrite app_nil_r.
  - rewrite !stream_events_next.
    destruct (is_final_response event); [reflexivity |].
    rewrite (IH (out ++ event_frames event)%list).
    rewrite (IH ([] ++ event_frames event)%list).
    cbn [fst snd app]. now rewrite <- app_assoc.
  - cbn. now rewrite app_nil_r.
Qed.

(** When [json.dumps] accepts every frame the loop builds, the loop with
    the serialiser yields exactly those frames and ends the same way. *)
Lemma json_stream_events (json : JsonStream.Json) (items : list step) :
  forall out : list frame,
    Forall (JsonStream.serialises json) (snd (stream_events items [])) ->
    JsonStream.stream_events json items out = stream_events items out.
Proof.
  induction items as [| [event | e] items IH]; intros out Hser.
  - reflexivity.
  - rewrite stream_events_next in Hser. rewrite stream_events_next.
    cbn [JsonStream.stream_events]. unfold bind at 1.
    destruct (is_final_response event).
    + cbn [snd app] in Hser. apply Forall_app in Hser.
      destruct Hser as [Hev Hfin].
      rewrite json_stream_event by assumption.
      rewrite final_reply_spec, yield_data_accepted, <- app_assoc;
        [reflexivity | now inversion Hfin].
    + rewrite stream_events_from in Hser. cbn [snd app] in Hser.
      apply Forall_app in Hser. destruct Hser as [Hev Hrest].
      rewrite json_stream_event by assumption.
      now apply IH.
  - reflexivity.
Qed.

(** The same for the whole generator, its handler included. *)
Lemma json_stream_run (json : JsonStream.Json) (runner : Runner)
    (request : ChatRequest) :
  Forall (JsonStream.serialises json) (snd (run_stream runner request)) ->
  JsonStream.run_stream json runner request = run_stream runner request.
Proof.
  unfold JsonStream.run_stream, JsonStream.chat_stream, run_stream,
    chat_stream. cbn [body_iterator].
  unfold JsonStream.generate_stream, generate_stream, try_except, bind, lift.
  destruct (run_async runner USER_ID SESSION_ID
              (user_message (message request))) as [e | items].
  - unfold yield, emit. cbn [app snd]. intros Hser.
    apply yield_data_accepted. now inversion Hser.
  - destruct (stream_events items []) as [[e | []] fs] eqn:Hloop.
    + unfold yield, emit. cbn [snd]. intros Hser.
      apply Forall_app in Hser. destruct Hser as [Hfs Herr].
      rewrite json_stream_events, Hloop by (now rewrite Hloop).
      apply yield_data_accepted. now inversion Herr.
    + cbn [snd]. intros Hser.
      now rewrite json_stream_events, Hloop by (now rewrite Hloop).
Qed.

(** C3, on the code.  When the runner's sequence ends without any
    final-flagged event, the stream ends after the tool frames: no
    [final_response] frame is emitted, and the last frame is a tool frame.
    The same holds with the serialiser in, which accepts both frames. *)
Lemma C3_stream_without_final_event_counterexample :
  run_outcome unfinished_runner (message hello)
  = inr (map Next [call_event; result_event])
  /\ run_stream unfinished_runner hello
     = (inr tt,
        [tool_call_frame weather_call;
         tool_response_frame weather_result (PStr "X")])
  /\ count_type "final_response" (snd (run_stream unfinished_runner hello)) = 0
  /\ JsonStream.run_stream JsonStream.digit_limit_json unfinished_runner hello
     = (inr tt,
        [tool_call_frame weather_call;
         tool_response_frame weather_result (PStr "X")])
  /\ count_type "final_response"
       (snd (JsonStream.run_stream JsonStream.digit_limit_json
               unfinished_runner hello)) = 0.
Proof.
  split; [reflexivity |]. split; [reflexivity |]. split; [reflexivity |].
  split; reflexivity.
Qed.

(** A tool result that [json.dumps] rejects ends the stream at its frame:
    the iterator would still reach the reply event, but the generator
    yields the frame of the call, then the error frame, and no
    [final_response] frame.  [/chat] answers the same conversation. *)
Example stream_rejected_payload_run :
  JsonStream.run_stream JsonStream.digit_limit_json JsonStream.huge_runner
    hello
  = (inr tt,
     [tool_call_frame weather_call;
      error_frame JsonStream.digit_limit_error])
  /\ fst (chat JsonStream.huge_runner hello [])
     = inr {| response := "Sunny in Tokyo.";
              tool_calls := Some [tool_call_record weather_call];
              tool_responses :=
                Some [tool_response_record JsonStream.huge_result
                        (PInt (10 ^ 5000))] |}.
Proof.
  split; vm_compute; reflexivity.
Qed.

(** C3, amended.  When a final-flagged event is reached and [json.dumps]
    accepts the mapping of every frame up to and including the
    [final_response] frame, [/chat/stream] emits the frames of the events
    up to and including the first final-flagged event in exactly the order
    the events, and the parts within each event, are received, then one
    [final_response] frame, and ends: that frame is the last one and the
    only one of its type.  This includes a conversation with no tool call
    and no tool response, whose stream is the [final_response] frame
    alone. *)
Theorem C3_stream_frames_in_order_then_one_final
    (json : JsonStream.Json) (runner : Runner) (request : ChatRequest)
    (pre : list Event) (fin : Event) (suf : list step) :
  run_outcome runner (message request)
  = inr (map Next pre ++ Next fin :: suf)%list ->
  Forall not_final pre -> is_final fin ->
  Forall (JsonStream.serialises json)
    (flat_map event_frames (pre ++ [fin])
     ++ [final_response_frame (final_reply fin)])%list ->
  JsonStream.run_stream json runner request
  = (inr tt,
     (flat_map event_frames (pre ++ [fin])
      ++ [final_response_frame (final_reply fin)])%list)
  /\ count_type "final_response" (flat_map event_frames (pre ++ [fin])) = 0
  /\ count_type "final_response"
       (snd (JsonStream.run_stream json runner request)) = 1
  /\ (flat_map event_frames (pre ++ [fin]) = [] ->
      snd (JsonStream.run_stream json runner request)
      = [final_response_frame (final_reply fin)]).
Proof.
  intros Hrun Hpre Hfin Hser.
  pose proof (stream_on_final runner request pre fin suf Hrun Hpre Hfin)
    as Hframes.
  rewrite json_stream_run by (now rewrite Hframes).
  rewrite Hframes.
  cbn [snd]. rewrite count_type_app, events_frames_types by (now left).
  repeat split; try reflexivity.
  intros ->. reflexivity.
Qed.

Lemma C3_stream_frames_witness :
  run_outcome sample_runner (message hello)
  = inr (map Next [call_event; result_event]
         ++ Next reply_event :: [Next late_event; Throw session_missing])%list
  /\ Forall not_final [call_event; result_event]
  /\ is_final reply_event
  /\ Forall (JsonStream.serialises JsonStream.digit_limit_json)
       (flat_map event_frames ([call_event; result_event] ++ [reply_event])
        ++ [final_response_frame (final_reply reply_event)])%list
  /\ JsonStream.run_stream JsonStream.digit_limit_json sample_runner hello
     = (inr tt,
        (flat_map event_frames ([call_event; result_event] ++ [reply_event])
         ++ [final_response_frame (final_reply reply_event)])%list)
  /\ count_type "final_response"
       (flat_map event_frames ([call_event; result_event] ++ [reply_event])) = 0
  /\ count_type "final_response"
       (snd (JsonStream.run_stream JsonStream.digit_limit_json
               sample_runner hello)) = 1
  /\ (flat_map event_frames ([call_event; result_event] ++ [reply_event])
      = [] ->
      snd (JsonStream.run_stream JsonStream.digit_limit_json
             sample_runner hello)
      = [final_response_frame (final_reply reply_event)]).
Proof.
  assert (Hrun : run_outcome sample_runner (message hello)
                 = inr (map Next [call_event; result_event]
                        ++ Next reply_event
                           :: [Next late_event; Throw session_missing])%list)
    by reflexivity.
  assert (Hpre : Forall not_final [call_event; result_event])
    by (repeat constructor).
  assert (Hfin : is_final reply_event) by reflexivity.
  assert (Hser : Forall (JsonStream.serialises JsonStream.digit_limit_json)
                   (flat_map event_frames
                      ([call_event; result_event] ++ [reply_event])
                    ++ [final_response_frame (final_reply reply_event)])%list).
  { repeat constructor; exists "{}"; reflexivity. }
  split; [exact Hrun |]. split; [exact Hpre |]. split; [exact Hfin |].
  split; [exact Hser |].
  exact (C3_stream_frames_in_order_then_one_final JsonStream.digit_limit_json
           sample_runner hello [call_event; result_event] reply_event
           [Next late_event; Throw session_missing] Hrun Hpre Hfin Hser).
Defined.



(** C5.  When the call to the runner raises, or its iterator raises before
    any final-flagged event, [chat] returns no [ChatResponse]: it raises
    the [HTTPException] with status 500 whose detail ends with the string
    form of the exception (after logging it), and the caller is answered
    with status 500 and that detail alone: none of the tool calls, tool
    responses or reply text gathered before the failure is in the answer. *)
Theorem C5_chat_exception_becomes_500
    (runner : Runner) (request : ChatRequest) (e : exn) (out : list output) :
  run_outcome runner (message request) = inl e
  \/ (exists (pre : list Event) (rest : list step),
         run_outcome runner (message request)
         = inr (map Next pre ++ Throw e :: rest)%list
         /\ Forall not_final pre) ->
  chat runner request out
  = (inl (HTTPException 500 ("Error processing request: " ++ str e)),
     (out ++ agent_error_log e)%list)
  /\ POST_chat runner request out
     = ({| http_status := 500;
           http_body :=
             PDict [("detail",
                     PStr ("Error processing request: " ++ str e))] |},
        (out ++ agent_error_log e)%list).
Proof.
  intros Hrun.
  assert (Hchat : chat runner request out
                  = (inl (HTTPException 500
                            ("Error processing request: " ++ str e)),
                     (out ++ agent_error_log e)%list)).
  { destruct Hrun as [Hrun | (pre & rest & Hrun & Hpre)].
    - apply chat_raises. now left.
    - now apply (chat_on_throw runner request pre e rest). }
  split; [exact Hchat |].
  unfold POST_chat, serve. now rewrite Hchat.
Qed.

Lemma C5_chat_exception_witness :
  (run_outcome broken_runner (message hello) = inl session_missing
   \/ (exists (pre : list Event) (rest : list step),
          run_outcome broken_runner (message hello)
          = inr (map Next pre ++ Throw session_missing :: rest)%list
          /\ Forall not_final pre))
  /\ chat broken_runner hello []
     = (inl (HTTPException 500
               ("Error processing request: " ++ str session_missing)),
        ([] ++ agent_error_log session_missing)%list)
  /\ POST_chat broken_runner hello []
     = ({| http_status := 500;
           http_body :=
             PDict [("detail",
                     PStr ("Error processing request: "
                           ++ str session_missing))] |},
        ([] ++ agent_error_log session_missing)%list).
Proof.
  assert (Hrun :
            run_outcome broken_runner (message hello) = inl session_missing
            \/ (exists (pre : list Event) (rest : list step),
                   run_outcome broken_runner (message hello)
                   = inr (map Next pre ++ Throw session_missing :: rest)%list
                   /\ Forall not_final pre)).
  { right. exists [call_event], [Next reply_event].
    split; [reflexivity | repeat constructor]. }
  split; [exact Hrun |].
  exact (C5_chat_exception_becomes_500 broken_runner hello session_missing []
           Hrun).
Defined.



(** C7.  [GET /health] is answered with status 200 and the body
    [{status: "healthy", service: "a2a-host-agent", version: "1.0.0"}],
    whatever has happened before, and writes nothing. *)
Theorem C7_health_is_constant (out : list output) :
  health_check out
  = (inr {| status := "healthy";
            service := "a2a-host-agent";
            version := "1.0.0" |}, out)
  /\ GET_health out
     = ({| http_status := 200;
           http_body :=
             PDict [("status", PStr "healthy");
                    ("service", PStr "a2a-host-agent");
                    ("version", PStr "1.0.0")] |}, out).
Proof.
  split; reflexivity.
Qed.

(** C8.  The startup handler never raises, whatever [create_session] does;
    when [create_session] raises, the handler logs the failure and returns
    normally, so startup goes on. *)
Theorem C8_startup_handler_never_raises
    (SESSION_SERVICE : SessionService) (out : list output) :
  fst (startup_event SESSION_SERVICE out) = inr tt
  /\ (forall (e : exn) (out' : list output),
        create_session SESSION_SERVICE APP_NAME USER_ID SESSION_ID
          (out ++ [Stdout "Creating ADK session..."])%list
        = (inl e, out') ->
        startup_event SESSION_SERVICE out
        = (inr tt,
           (out' ++ [Stdout ("Error creating ADK session: " ++ str e);
                     Traceback e])%list)).
Proof.
  unfold startup_event, try_except, bind, print, traceback_print_exc, emit.
  split.
  - destruct (create_session SESSION_SERVICE APP_NAME USER_ID SESSION_ID _)
      as [[e | []] out']; reflexivity.
  - intros e out' ->. now rewrite <- app_assoc.
Qed.

Lemma C8_startup_handler_witness :
  create_session failing_sessions APP_NAME USER_ID SESSION_ID
    ([] ++ [Stdout "Creating ADK session..."])%list
  = (inl session_missing, [Stdout "Creating ADK session..."])
  /\ startup_event failing_sessions []
     = (inr tt,
        ([Stdout "Creating ADK session..."]
         ++ [Stdout ("Error creating ADK session: " ++ str session_missing);
             Traceback session_missing])%list).
Proof.
  split; [reflexivity |].
  exact (proj2 (C8_startup_handler_never_raises failing_sessions [])
           session_missing [Stdout "Creating ADK session..."] eq_refl).
Defined.

(** C9.  When the runner's sequence ends without a final-flagged event and
    without raising, [/chat] answers with status 200: the response text is
    the empty string and the two lists hold the records of the whole
    sequence. *)
Theorem C9_chat_without_final_event
    (runner : Runner) (request : ChatRequest)
    (events : list Event) (out : list output) :
  run_outcome runner (message request) = inr (map Next events) ->
  Forall not_final events ->
  chat runner request out
  = (inr {| response := "";
            tool_calls := Some (flat_map event_tool_calls events);
            tool_responses := Some (flat_map event_tool_responses events) |},
     out)
  /\ POST_chat runner request out
     = ({| http_status := 200;
           http_body :=
             PDict [("response", PStr "");
                    ("tool_calls", PList (flat_map event_tool_calls events));
                    ("tool_responses",
                     PList (flat_map event_tool_responses events))] |},
        out).
Proof.
  intros Hrun Hall.
  pose proof (chat_on_exhausted runner request events out Hrun Hall) as Hchat.
  split; [exact Hchat |].
  unfold POST_chat, serve. now rewrite Hchat.
Qed.

Lemma C9_chat_without_final_witness :
  run_outcome unfinished_runner (message hello)
  = inr (map Next [call_event; result_event])
  /\ Forall not_final [call_event; result_event]
  /\ chat unfinished_runner hello []
     = (inr {| response := "";
               tool_calls :=
                 Some (flat_map event_tool_calls [call_event; result_event]);
               tool_responses :=
                 Some (flat_map event_tool_responses
                         [call_event; result_event]) |},
        [])
  /\ POST_chat unfinished_runner hello []
     = ({| http_status := 200;
           http_body :=
             PDict [("response", PStr "");
                    ("tool_calls",
                     PList (flat_map event_tool_calls
                              [call_event; result_event]));
                    ("tool_responses",
                     PList (flat_map event_tool_responses
                              [call_event; result_event]))] |},
        []).
Proof.
  assert (Hall : Forall not_final [call_event; result_event])
    by (repeat constructor).
  split; [reflexivity |]. split; [exact Hall |].
  exact (C9_chat_without_final_event unfinished_runner hello
           [call_event; result_event] [] eq_refl Hall).
Defined.



(** * Further properties of the service *)

(** ** Every run of the runner *)

(** The steps of an iterator, as the loops see them: events that are not
    final, then the end, a final event, or an exception. *)
Lemma steps_split (items : list step) :
  (exists pre : list Event, items = map Next pre /\ Forall not_final pre)
  \/ (exists (pre : list Event) (fin : Event) (suf : list step),
        items = (map Next pre ++ Next fin :: suf)%list
        /\ Forall not_final pre /\ is_final fin)
  \/ (exists (pre : list Event) (e : exn) (rest : list step),
        items = (map Next pre ++ Throw e :: rest)%list
        /\ Forall not_final pre).
Proof.
  induction items as [| [event | e] items IH].
  - left. exists []. split; [reflexivity | constructor].
  - destruct (is_final_response event) eqn:Hev.
    + right. left. exists [], event, items.
      split; [reflexivity |]. split; [constructor | exact Hev].
    + destruct IH as [(pre & -> & Hpre)
                     | [(pre & fin & suf & -> & Hpre & Hfin)
                       | (pre & e & rest & -> & Hpre)]].
      * left. exists (event :: pre). split; [reflexivity | now constructor].
      * right. left. exists (event :: pre), fin, suf.
        split; [reflexivity |]. split; [now constructor | exact Hfin].
      * right. right. exists (event :: pre), e, rest.
        split; [reflexivity | now constructor].
  - right. right. exists [], e, items. split; [reflexivity | constructor].
Qed.

Lemma part_frames_tool (part : Part) : Forall is_tool_frame (part_frames part).
Proof.
  unfold part_frames.
  destruct (function_call part) as [fc |];
    [| destruct (function_response part) as [fr |]].
  - constructor; [now left | constructor].
  - constructor; [now right | constructor].
  - constructor.
Qed.

Lemma events_frames_tool (events : list Event) :
  Forall is_tool_frame (flat_map event_frames events).
Proof.
  induction events as [| event events IH]; [constructor |].
  cbn [flat_map]. apply Forall_app. split; [| exact IH].
  unfold event_frames.
  induction (event_parts event) as [| p ps IHp]; [constructor |].
  cbn [flat_map]. apply Forall_app. split; [apply part_frames_tool | exact IHp].
Qed.

Lemma frames_of_type_app (ty : string) (fs gs : list frame) :
  frames_of_type ty (fs ++ gs)
  = (frames_of_type ty fs ++ frames_of_type ty gs)%list.
Proof.
  unfold frames_of_type. now rewrite filter_app, map_app.
Qed.

Lemma part_frames_calls (part : Part) :
  frames_of_type "tool_call" (part_frames part) = part_tool_calls part.
Proof.
  unfold part_frames, part_tool_calls.
  destruct (function_call part) as [fc |];
    [| destruct (function_response part) as [fr |]]; reflexivity.
Qed.

Lemma part_frames_responses (part : Part) :
  frames_of_type "tool_response" (part_frames part) = part_tool_responses part.
Proof.
  unfold part_frames, part_tool_responses.
  destruct (function_call part) as [fc |];
    [| destruct (function_response part) as [fr |]]; reflexivity.
Qed.

Lemma events_frames_calls (events : list Event) :
  frames_of_type "tool_call" (flat_map event_frames events)
  = flat_map event_tool_calls events.
Proof.
  induction events as [| event events IH]; [reflexivity |].
  cbn [flat_map]. rewrite frames_of_type_app, IH. f_equal.
  unfold event_frames, event_tool_calls.
  induction (event_parts event) as [| p ps IHp]; [reflexivity |].
  cbn [flat_map]. now rewrite frames_of_type_app, part_frames_calls, IHp.
Qed.

Lemma events_frames_responses (events : list Event) :
  frames_of_type "tool_response" (flat_map event_frames events)
  = flat_map event_tool_responses events.
Proof.
  induction events as [| event events IH]; [reflexivity |].
  cbn [flat_map]. rewrite frames_of_type_app, IH. f_equal.
  unfold event_frames, event_tool_responses.
  induction (event_parts event) as [| p ps IHp]; [reflexivity |].
  cbn [flat_map]. now rewrite frames_of_type_app, part_frames_responses, IHp.
Qed.

Lemma events_frames_no_terminal (events : list Event) (ty : string) :
  ty = "final_response" \/ ty = "error" ->
  frames_of_type ty (flat_map event_frames events) = [].
Proof.
  intros Hty. pose proof (events_frames_types events ty Hty) as Hcount.
  unfold count_type in Hcount. unfold frames_of_type.
  destruct (filter (has_type ty) (flat_map event_frames events));
    [reflexivity | discriminate].
Qed.


(** Replacing the text of parts changes neither the records nor the
    frames of an event. *)
Lemma event_parts_retext (f : Part -> option string) (event : Event) :
  event_parts (retext f event) = map (with_text f) (event_parts event).
Proof.
  unfold event_parts, truthy_parts, retext, retext_content. cbn [content].
  destruct (content event) as [c |]; [| reflexivity]. cbn [option_map parts].
  destruct (parts c) as [[| p ps] |]; reflexivity.
Qed.

Lemma events_retext_same (A : Type) (per_part : Part -> list A)
    (f : Part -> option string) (events : list Event) :
  (forall part : Part, per_part (with_text f part) = per_part part) ->
  flat_map (fun event => flat_map per_part (event_parts event))
    (map (retext f) events)
  = flat_map (fun event => flat_map per_part (event_parts event)) events.
Proof.
  intros Hpart.
  induction events as [| event events IH]; [reflexivity |].
  cbn [map flat_map]. rewrite IH, event_parts_retext. f_equal.
  induction (event_parts event) as [| p ps IHp]; [reflexivity |].
  cbn [map flat_map]. now rewrite Hpart, IHp.
Qed.

Lemma not_final_retext (f : Part -> option string) (events : list Event) :
  Forall not_final events -> Forall not_final (map (retext f) events).
Proof.
  induction 1 as [| event events Hev _ IH]; cbn [map]; constructor.
  - exact Hev.
  - exact IH.
Qed.

(** ** What [/chat] can answer *)

(** X1.  Whatever the runner does, [chat] either returns a response whose
    two lists are present and writes nothing, or raises the
    [HTTPException] with status 500 and detail
    ["Error processing request: "] followed by the string form of the
    runner's exception, after writing the error line and the traceback.
    So [POST /chat] answers 200 or 500 and nothing else, and the
    ["Internal server error"] handler of [chat] never runs. *)
Theorem X1_chat_answers_200_or_500
    (runner : Runner) (request : ChatRequest) (out : list output) :
  (exists (reply : string) (calls responses : list pyval),
      chat runner request out
      = (inr {| response := reply;
                tool_calls := Some calls;
                tool_responses := Some responses |}, out)
      /\ POST_chat runner request out
         = ({| http_status := 200;
               http_body :=
                 PDict [("response", PStr reply);
                        ("tool_calls", PList calls);
                        ("tool_responses", PList responses)] |}, out))
  \/ (exists e : exn,
        chat runner request out
        = (inl (HTTPException 500 ("Error processing request: " ++ str e)),
           (out ++ agent_error_log e)%list)
        /\ POST_chat runner request out
           = ({| http_status := 500;
                 http_body :=
                   PDict [("detail",
                           PStr ("Error processing request: " ++ str e))] |},
              (out ++ agent_error_log e)%list)).
Proof.
  assert (Hok : forall (reply : string) (calls responses : list pyval),
             chat runner request out
             = (inr {| response := reply;
                       tool_calls := Some calls;
                       tool_responses := Some responses |}, out) ->
             exists (reply : string) (calls responses : list pyval),
               chat runner request out
               = (inr {| response := reply;
                         tool_calls := Some calls;
                         tool_responses := Some responses |}, out)
               /\ POST_chat runner request out
                  = ({| http_status := 200;
                        http_body :=
                          PDict [("response", PStr reply);
                                 ("tool_calls", PList calls);
                                 ("tool_responses", PList responses)] |},
                     out)).
  { intros reply calls responses Hchat. exists reply, calls, responses.
    split; [exact Hchat |]. unfold POST_chat, serve. now rewrite Hchat. }
  assert (Hko : forall e : exn,
             chat runner request out
             = (inl (HTTPException 500
                       ("Error processing request: " ++ str e)),
                (out ++ agent_error_log e)%list) ->
             exists e : exn,
               chat runner request out
               = (inl (HTTPException 500
                         ("Error processing request: " ++ str e)),
                  (out ++ agent_error_log e)%list)
               /\ POST_chat runner request out
                  = ({| http_status := 500;
                        http_body :=
                          PDict [("detail",
                                  PStr ("Error processing request: "
                                        ++ str e))] |},
                     (out ++ agent_error_log e)%list)).
  { intros e Hchat. exists e. split; [exact Hchat |].
    unfold POST_chat, serve. now rewrite Hchat. }
  destruct (run_outcome runner (message request)) as [e | items] eqn:Hrun.
  - right. apply (Hko e). apply chat_raises. now left.
  - destruct (steps_split items)
      as [(pre & -> & Hpre)
         | [(pre & fin & suf & -> & Hpre & Hfin)
           | (pre & e & rest & -> & Hpre)]].
    + left. eapply Hok.
      exact (chat_on_exhausted runner request pre out Hrun Hpre).
    + left. eapply Hok.
      exact (chat_on_final runner request pre fin suf out Hrun Hpre Hfin).
    + right. apply (Hko e).
      exact (chat_on_throw runner request pre e rest out Hrun Hpre).
Qed.

(** ** What [/chat/stream] can send *)

(** X2.  Whatever the runner does, the generator of [/chat/stream] ends
    without raising, and its frames are tool-call and tool-response frames
    followed by at most one closing frame: nothing (the iterator ended
    without a final event), one [final_response] frame, or one [error]
    frame.  A stream never holds both a [final_response] and an [error]
    frame, and no tool frame follows either. *)
Theorem X2_stream_ends_with_at_most_one_closing_frame
    (runner : Runner) (request : ChatRequest) :
  exists tools closing : list frame,
    run_stream runner request = (inr tt, (tools ++ closing)%list)
    /\ Forall is_tool_frame tools
    /\ count_type "final_response" tools = 0
    /\ count_type "error" tools = 0
    /\ (closing = []
        \/ (exists reply : string, closing = [final_response_frame reply])
        \/ (exists e : exn, closing = [error_frame e])).
Proof.
  destruct (run_outcome runner (message request)) as [e | items] eqn:Hrun.
  - exists [], [error_frame e].
    split; [now apply stream_on_refusal |].
    split; [constructor |]. split; [reflexivity |]. split; [reflexivity |].
    right. right. now exists e.
  - destruct (steps_split items)
      as [(pre & -> & Hpre)
         | [(pre & fin & suf & -> & Hpre & Hfin)
           | (pre & e & rest & -> & Hpre)]].
    + exists (flat_map event_frames pre), [].
      rewrite app_nil_r.
      split; [now apply stream_on_exhausted |].
      split; [apply events_frames_tool |].
      split; [apply events_frames_types; now left |].
      split; [apply events_frames_types; now right |].
      now left.
    + exists (flat_map event_frames (pre ++ [fin])),
        [final_response_frame (final_reply fin)].
      split; [now apply (stream_on_final runner request pre fin suf) |].
      split; [apply events_frames_tool |].
      split; [apply events_frames_types; now left |].
      split; [apply events_frames_types; now right |].
      right. left. now exists (final_reply fin).
    + exists (flat_map event_frames pre), [error_frame e].
      split; [now apply (stream_on_throw runner request pre e rest) |].
      split; [apply events_frames_tool |].
      split; [apply events_frames_types; now left |].
      split; [apply events_frames_types; now right |].
      right. right. now exists e.
Qed.

(** ** The two chat endpoints side by side *)

(** What [chat] does, next to the frames the generator builds for the
    same outcome of the runner's call. *)
Lemma chat_and_built_frames
    (runner : Runner) (request : ChatRequest) (out : list output) :
  (exists r : ChatResponse,
      chat runner request out = (inr r, out)
      /\ tool_calls r
         = Some (frames_of_type "tool_call" (snd (run_stream runner request)))
      /\ tool_responses r
         = Some (frames_of_type "tool_response"
                   (snd (run_stream runner request)))
      /\ frames_of_type "error" (snd (run_stream runner request)) = []
      /\ (frames_of_type "final_response" (snd (run_stream runner request))
          = [PDict [("response", PStr (response r))]]
          \/ (frames_of_type "final_response"
                (snd (run_stream runner request)) = []
              /\ response r = "")))
  \/ (exists e : exn,
        chat runner request out
        = (inl (HTTPException 500 ("Error processing request: " ++ str e)),
           (out ++ agent_error_log e)%list)
        /\ frames_of_type "error" (snd (run_stream runner request))
           = [PDict [("error", PStr (str e))]]
        /\ frames_of_type "final_response" (snd (run_stream runner request))
           = []).
Proof.
  destruct (run_outcome runner (message request)) as [e | items] eqn:Hrun.
  - right. exists e.
    rewrite (stream_on_refusal runner request e Hrun).
    split; [apply chat_raises; now left |]. split; reflexivity.
  - destruct (steps_split items)
      as [(pre & -> & Hpre)
         | [(pre & fin & suf & -> & Hpre & Hfin)
           | (pre & e & rest & -> & Hpre)]].
    + left. eexists.
      split; [exact (chat_on_exhausted runner request pre out Hrun Hpre) |].
      rewrite (stream_on_exhausted runner request pre Hrun Hpre).
      cbn [snd tool_calls tool_responses response].
      rewrite events_frames_calls, events_frames_responses.
      rewrite !events_frames_no_terminal by (now left + now right).
      repeat (split; [reflexivity |]). right. split; reflexivity.
    + left. eexists.
      split;
        [exact (chat_on_final runner request pre fin suf out Hrun Hpre Hfin) |].
      rewrite (stream_on_final runner request pre fin suf Hrun Hpre Hfin).
      cbn [snd tool_calls tool_responses response].
      rewrite !frames_of_type_app.
      rewrite events_frames_calls, events_frames_responses.
      rewrite !events_frames_no_terminal by (now left + now right).
      cbn. rewrite !app_nil_r.
      repeat (split; [reflexivity |]). left. reflexivity.
    + right. exists e.
      split; [exact (chat_on_throw runner request pre e rest out Hrun Hpre) |].
      rewrite (stream_on_throw runner request pre e rest Hrun Hpre).
      cbn [snd]. rewrite !frames_of_type_app.
      rewrite !events_frames_no_terminal by (now left + now right).
      split; reflexivity.
Qed.

(** X3.  On the same outcome of the runner's call, and when [json.dumps]
    accepts the mapping of every frame the generator builds, [/chat] and
    [/chat/stream] tell the same story.  When [chat] returns, its
    [tool_calls] and [tool_responses] are the payloads of the stream's
    [tool_call] and [tool_response] frames in the same order, the stream
    has no [error] frame, and its [final_response] frame carries the
    response text of [chat] (or there is no such frame and that text is
    empty).  When [chat] raises its 500, the stream has one [error] frame
    with the same exception text and no [final_response] frame. *)
Theorem X3_chat_and_stream_agree
    (json : JsonStream.Json) (runner : Runner) (request : ChatRequest)
    (out : list output) :
  Forall (JsonStream.serialises json) (snd (run_stream runner request)) ->
  (exists r : ChatResponse,
      chat runner request out = (inr r, out)
      /\ tool_calls r
         = Some (frames_of_type "tool_call"
                   (snd (JsonStream.run_stream json runner request)))
      /\ tool_responses r
         = Some (frames_of_type "tool_response"
                   (snd (JsonStream.run_stream json runner request)))
      /\ frames_of_type "error"
           (snd (JsonStream.run_stream json runner request)) = []
      /\ (frames_of_type "final_response"
            (snd (JsonStream.run_stream json runner request))
          = [PDict [("response", PStr (response r))]]
          \/ (frames_of_type "final_response"
                (snd (JsonStream.run_stream json runner request)) = []
              /\ response r = "")))
  \/ (exists e : exn,
        chat runner request out
        = (inl (HTTPException 500 ("Error processing request: " ++ str e)),
           (out ++ agent_error_log e)%list)
        /\ frames_of_type "error"
             (snd (JsonStream.run_stream json runner request))
           = [PDict [("error", PStr (str e))]]
        /\ frames_of_type "final_response"
             (snd (JsonStream.run_stream json runner request))
           = []).
Proof.
  intros Hser. rewrite (json_stream_run json runner request Hser).
  apply chat_and_built_frames.
Qed.

Lemma X3_chat_and_stream_witness :
  Forall (JsonStream.serialises JsonStream.digit_limit_json)
    (snd (run_stream sample_runner hello))
  /\ ((exists r : ChatResponse,
          chat sample_runner hello [] = (inr r, [])
          /\ tool_calls r
             = Some (frames_of_type "tool_call"
                       (snd (JsonStream.run_stream
                               JsonStream.digit_limit_json
                               sample_runner hello)))
          /\ tool_responses r
             = Some (frames_of_type "tool_response"
                       (snd (JsonStream.run_stream
                               JsonStream.digit_limit_json
                               sample_runner hello)))
          /\ frames_of_type "error"
               (snd (JsonStream.run_stream JsonStream.digit_limit_json
                       sample_runner hello)) = []
          /\ (frames_of_type "final_response"
                (snd (JsonStream.run_stream JsonStream.digit_limit_json
                        sample_runner hello))
              = [PDict [("response", PStr (response r))]]
              \/ (frames_of_type "final_response"
                    (snd (JsonStream.run_stream JsonStream.digit_limit_json
                            sample_runner hello)) = []
                  /\ response r = "")))
      \/ (exists e : exn,
            chat sample_runner hello []
            = (inl (HTTPException 500
                      ("Error processing request: " ++ str e)),
               ([] ++ agent_error_log e)%list)
            /\ frames_of_type "error"
                 (snd (JsonStream.run_stream JsonStream.digit_limit_json
                         sample_runner hello))
               = [PDict [("error", PStr (str e))]]
            /\ frames_of_type "final_response"
                 (snd (JsonStream.run_stream JsonStream.digit_limit_json
                         sample_runner hello))
               = [])).
Proof.
  assert (Hser : Forall (JsonStream.serialises JsonStream.digit_limit_json)
                   (snd (run_stream sample_runner hello))).
  { repeat constructor; exists "{}"; reflexivity. }
  split; [exact Hser |].
  exact (X3_chat_and_stream_agree JsonStream.digit_limit_json sample_runner
           hello [] Hser).
Defined.

(** X4.  Text carried by events that are not final never reaches the
    caller: changing or removing the text of any part of the events that
    come before the first final event (or before the end, or before the
    exception) changes neither what [/chat] does nor the frames of
    [/chat/stream]. *)
Theorem X4_text_before_the_final_event_is_dropped
    (runner runner' : Runner) (request : ChatRequest)
    (f : Part -> option string) (pre : list Event) (rest : list step)
    (out : list output) :
  run_outcome runner (message request) = inr (map Next pre ++ rest)%list ->
  run_outcome runner' (message request)
  = inr (map Next (map (retext f) pre) ++ rest)%list ->
  Forall not_final pre ->
  chat runner' request out = chat runner request out
  /\ run_stream runner' request = run_stream runner request.
Proof.
  unfold run_outcome. intros Hrun Hrun' Hpre.
  pose proof (not_final_retext f pre Hpre) as Hpre'.
  assert (Hcalls : flat_map event_tool_calls (map (retext f) pre)
                   = flat_map event_tool_calls pre)
    by (apply (events_retext_same pyval part_tool_calls); reflexivity).
  assert (Hresps : flat_map event_tool_responses (map (retext f) pre)
                   = flat_map event_tool_responses pre)
    by (apply (events_retext_same pyval part_tool_responses); reflexivity).
  assert (Hframes : flat_map event_frames (map (retext f) pre)
                    = flat_map event_frames pre)
    by (apply (events_retext_same frame part_frames); reflexivity).
  split.
  - unfold chat, get_response_from_agent, try_except, bind, lift.
    rewrite Hrun, Hrun'.
    rewrite !consume_events_prefix by assumption.
    now rewrite Hcalls, Hresps.
  - unfold run_stream, chat_stream. cbn [body_iterator].
    unfold generate_stream, try_except, bind, lift.
    rewrite Hrun, Hrun'.
    rewrite !stream_events_prefix by assumption.
    now rewrite Hframes.
Qed.

Lemma X4_text_dropped_witness :
  run_outcome chatty_runner (message hello)
  = inr (map Next [chatty_call_event; result_event]
         ++ [Next reply_event])%list
  /\ run_outcome quiet_runner (message hello)
     = inr (map Next (map (retext (fun _ => None))
                        [chatty_call_event; result_event])
            ++ [Next reply_event])%list
  /\ Forall not_final [chatty_call_event; result_event]
  /\ chat quiet_runner hello [] = chat chatty_runner hello []
  /\ run_stream quiet_runner hello = run_stream chatty_runner hello.
Proof.
  assert (Hpre : Forall not_final [chatty_call_event; result_event])
    by (repeat constructor).
  split; [reflexivity |]. split; [reflexivity |]. split; [exact Hpre |].
  exact (X4_text_before_the_final_event_is_dropped chatty_runner quiet_runner
           hello (fun _ => None) [chatty_call_event; result_event]
           [Next reply_event] [] eq_refl eq_refl Hpre).
Defined.

(** * Properties of the integration test client *)

Ltac run_client :=
  cbv beta delta [try_except bind ret lift emit raise TestHostApi.print
                  TestHostApi.sleep TestHostApi.requests_get
                  TestHostApi.requests_post TestHostApi.getitem
                  TestHostApi.get_method TestHostApi.get_passes
                  TestHostApi.chat_passes TestHostApi.chat_outcome];
  cbn [fst snd app].

(** Every path through [test_chat], each closed by [tac]. *)
Ltac test_chat_paths tac :=
  unfold TestHostApi.test_chat; run_client;
  destruct (TestHostApi.post _ _ _ _) as [? | response]; [tac |];
  destruct (Z.eqb (TestHostApi.status_code response) 200); [| tac];
  destruct (TestHostApi.json response) as [? | result]; [tac |];
  destruct result as [| ? | ? | ? | ? | d]; try tac;
  destruct (dict_get "response" d); [| tac];
  cbn [andb];
  destruct (dict_get "tool_calls" d), (dict_get "tool_responses" d);
  cbn [TestHostApi.truthy];
  repeat match goal with
         | |- context [TestHostApi.truthy ?v] =>
             destruct (TestHostApi.truthy v)
         end;
  tac.

(** Every path through [test_health] and [test_root]. *)
Ltac test_get_paths tac :=
  run_client;
  destruct (TestHostApi.get _ _) as [? | response]; [tac |];
  destruct (TestHostApi.json response) as [? | body]; tac.

Lemma test_chat_run (requests : TestHostApi.Requests) (message : string)
    (session_id user_id : option string)
    (out : list TestHostApi.client_event) :
  TestHostApi.test_chat requests message session_id user_id out
  = (inr (TestHostApi.chat_passes
            (TestHostApi.post requests (TestHostApi.API_BASE_URL ++ "/chat")
               (PDict (TestHostApi.chat_payload message session_id user_id))
               TestHostApi.json_headers)),
     (out ++ TestHostApi.chat_events requests message session_id user_id)%list).
Proof.
  unfold TestHostApi.chat_events.
  test_chat_paths ltac:(now rewrite <- !app_assoc).
Qed.

Lemma test_chat_requests (requests : TestHostApi.Requests) (message : string)
    (session_id user_id : option string) :
  TestHostApi.requests_made
    (TestHostApi.chat_events requests message session_id user_id)
  = [TestHostApi.HttpPost (TestHostApi.API_BASE_URL ++ "/chat")
       (PDict (TestHostApi.chat_payload message session_id user_id))
       TestHostApi.json_headers]
  /\ filter TestHostApi.is_sleep
       (TestHostApi.chat_events requests message session_id user_id)
     = [].
Proof.
  unfold TestHostApi.chat_events.
  test_chat_paths ltac:(split; reflexivity).
Qed.

Lemma test_health_run (requests : TestHostApi.Requests)
    (out : list TestHostApi.client_event) :
  TestHostApi.test_health requests out
  = (inr (TestHostApi.get_passes
            (TestHostApi.get requests (TestHostApi.API_BASE_URL ++ "/health"))),
     (out ++ TestHostApi.health_events requests)%list).
Proof.
  unfold TestHostApi.health_events, TestHostApi.test_health.
  test_get_paths ltac:(now rewrite <- !app_assoc).
Qed.


Lemma test_root_run (requests : TestHostApi.Requests)
    (out : list TestHostApi.client_event) :
  TestHostApi.test_root requests out
  = (inr (TestHostApi.get_passes
            (TestHostApi.get requests (TestHostApi.API_BASE_URL ++ "/"))),
     (out ++ TestHostApi.root_events requests)%list).
Proof.
  unfold TestHostApi.root_events, TestHostApi.test_root.
  test_get_paths ltac:(now rewrite <- !app_assoc).
Qed.





Lemma chat_passes_iff (r : exn + TestHostApi.Response) :
  TestHostApi.chat_passes r = true
  <-> exists (response : TestHostApi.Response) (d : list (string * pyval))
             (answer : pyval),
        r = inr response
        /\ TestHostApi.status_code response = 200%Z
        /\ TestHostApi.json response = inr (PDict d)
        /\ dict_get "response" d = Some answer.
Proof.
  unfold TestHostApi.chat_passes. split.
  - destruct r as [e | response]; [discriminate |].
    destruct (Z.eqb_spec (TestHostApi.status_code response) 200) as [Hs | _];
      [| discriminate].
    destruct (TestHostApi.json response)
      as [e | [| b | n | s | items | d]] eqn:Hj; try discriminate.
    destruct (dict_get "response" d) as [answer |] eqn:Hd; [| discriminate].
    intros _. now exists response, d, answer.
  - intros (response & d & answer & -> & Hs & Hj & Hd).
    now rewrite Hs, Hj, Hd.
Qed.

Lemma get_passes_iff (r : exn + TestHostApi.Response) :
  TestHostApi.get_passes r = true
  <-> exists (response : TestHostApi.Response) (body : pyval),
        r = inr response
        /\ TestHostApi.json response = inr body
        /\ TestHostApi.status_code response = 200%Z.
Proof.
  unfold TestHostApi.get_passes. split.
  - destruct r as [e | response]; [discriminate |].
    destruct (TestHostApi.json response) as [e | body] eqn:Hj;
      [discriminate |].
    intros Hs. apply Z.eqb_eq in Hs. now exists response, body.
  - intros (response & body & -> & Hj & Hs). now rewrite Hj, Hs.
Qed.

(** What [chat] did decides the reply of [POST /chat]. *)
Lemma post_chat_reply (runner : Runner) (request : ChatRequest)
    (out : list output) :
  (exists r : ChatResponse,
      chat runner request out = (inr r, out)
      /\ fst (POST_chat runner request out)
         = {| http_status := 200; http_body := chat_json r |})
  \/ (exists (detail : string) (out' : list output),
        chat runner request out = (inl (HTTPException 500 detail), out')
        /\ fst (POST_chat runner request out)
           = {| http_status := 500;
                http_body := PDict [("detail", PStr detail)] |}).
Proof.
  assert (Hok : forall r : ChatResponse,
             chat runner request out = (inr r, out) ->
             fst (POST_chat runner request out)
             = {| http_status := 200; http_body := chat_json r |}).
  { intros r Hchat. unfold POST_chat, serve. now rewrite Hchat. }
  assert (Hko : forall (detail : string) (out' : list output),
             chat runner request out = (inl (HTTPException 500 detail), out') ->
             fst (POST_chat runner request out)
             = {| http_status := 500;
                  http_body := PDict [("detail", PStr detail)] |}).
  { intros detail out' Hchat. unfold POST_chat, serve. now rewrite Hchat. }
  destruct (run_outcome runner (message request)) as [e | items] eqn:Hrun.
  - pose proof (chat_raises runner request e out (or_introl Hrun)) as Hchat.
    right. do 2 eexists. split; [exact Hchat | exact (Hko _ _ Hchat)].
  - destruct (steps_split items)
      as [(pre & -> & Hpre)
         | [(pre & fin & suf & -> & Hpre & Hfin)
           | (pre & e & rest & -> & Hpre)]].
    + pose proof (chat_on_exhausted runner request pre out Hrun Hpre) as Hchat.
      left. eexists. split; [exact Hchat | exact (Hok _ Hchat)].
    + pose proof (chat_on_final runner request pre fin suf out Hrun Hpre Hfin)
        as Hchat.
      left. eexists. split; [exact Hchat | exact (Hok _ Hchat)].
    + pose proof (chat_on_throw runner request pre e rest out Hrun Hpre)
        as Hchat.
      right. do 2 eexists. split; [exact Hchat | exact (Hko _ _ Hchat)].
Qed.

(** ** The single tests *)

(** X5.  [test_chat] never raises.  It returns [True] exactly when the
    POST came back with status 200 and a JSON object that has a
    ["response"] entry; a failed connection, another status, a body that
    is not JSON, a JSON value that is not an object, or an object without
    ["response"] all give [False]. *)
Theorem X5_test_chat_passes_iff_200_with_response
    (requests : TestHostApi.Requests) (message : string)
    (session_id user_id : option string)
    (out : list TestHostApi.client_event) :
  exists verdict : bool,
    fst (TestHostApi.test_chat requests message session_id user_id out)
    = inr verdict
    /\ (verdict = true
        <-> exists (response : TestHostApi.Response)
                   (d : list (string * pyval)) (answer : pyval),
              TestHostApi.post requests (TestHostApi.API_BASE_URL ++ "/chat")
                (PDict (TestHostApi.chat_payload message session_id user_id))
                TestHostApi.json_headers
              = inr response
              /\ TestHostApi.status_code response = 200%Z
              /\ TestHostApi.json response = inr (PDict d)
              /\ dict_get "response" d = Some answer).
Proof.
  eexists. rewrite test_chat_run. cbn [fst].
  split; [reflexivity | apply chat_passes_iff].
Qed.

(** X6.  [test_chat] sends exactly one request, a POST to
    [API_BASE_URL/chat] with the JSON content type, and never sleeps.  The
    JSON it sends always has the message under ["message"]; it has a
    ["session_id"] (a ["user_id"]) entry exactly when a non-empty one was
    given, and then that value. *)
Theorem X6_test_chat_sends_one_post
    (requests : TestHostApi.Requests) (message : string)
    (session_id user_id : option string) :
  TestHostApi.requests_made
    (snd (TestHostApi.test_chat requests message session_id user_id []))
  = [TestHostApi.HttpPost "http://localhost:8003/chat"
       (PDict (TestHostApi.chat_payload message session_id user_id))
       [("Content-Type", "application/json")]]
  /\ filter TestHostApi.is_sleep
       (snd (TestHostApi.test_chat requests message session_id user_id []))
     = []
  /\ dict_get "message"
       (TestHostApi.chat_payload message session_id user_id)
     = Some (PStr message)
  /\ dict_get "session_id"
       (TestHostApi.chat_payload message session_id user_id)
     = (if truthy_str session_id then Some (opt_str session_id) else None)
  /\ dict_get "user_id"
       (TestHostApi.chat_payload message session_id user_id)
     = (if truthy_str user_id then Some (opt_str user_id) else None).
Proof.
  pose proof (test_chat_requests requests message session_id user_id)
    as [Hreq Hsleep].
  split; [exact Hreq |]. split; [exact Hsleep |].
  unfold TestHostApi.chat_payload.
  destruct (truthy_str session_id), (truthy_str user_id);
    repeat split; reflexivity.
Qed.

(** X7.  [test_health] and [test_root] never raise, and each returns
    [True] exactly when its GET came back with a body that parses as JSON
    and with status 200: a 200 whose body is not JSON fails the check. *)
Theorem X7_get_tests_pass_iff_200_with_json
    (requests : TestHostApi.Requests)
    (out : list TestHostApi.client_event) :
  (exists verdict : bool,
      fst (TestHostApi.test_health requests out) = inr verdict
      /\ (verdict = true
          <-> exists (response : TestHostApi.Response) (body : pyval),
                TestHostApi.get requests "http://localhost:8003/health"
                = inr response
                /\ TestHostApi.json response = inr body
                /\ TestHostApi.status_code response = 200%Z))
  /\ (exists verdict : bool,
        fst (TestHostApi.test_root requests out) = inr verdict
        /\ (verdict = true
            <-> exists (response : TestHostApi.Response) (body : pyval),
                  TestHostApi.get requests "http://localhost:8003/"
                  = inr response
                  /\ TestHostApi.json response = inr body
                  /\ TestHostApi.status_code response = 200%Z)).
Proof.
  split; eexists.
  - rewrite test_health_run. cbn [fst].
    split; [reflexivity | apply get_passes_iff].
  - rewrite test_root_run. cbn [fst].
    split; [reflexivity | apply get_passes_iff].
Qed.

(** ** The script against the service *)

(** X8.  When the network hands [test_chat] the reply [POST /chat] gives
    for the same message (its status, and its body as JSON), the test
    returns [True] exactly when [chat] returned a response, and [False]
    exactly when [chat] raised its 500. *)
Theorem X8_test_chat_passes_iff_chat_returned
    (requests : TestHostApi.Requests) (runner : Runner) (message : string)
    (session_id user_id : option string) (body_text : string)
    (server_out : list output) (out : list TestHostApi.client_event) :
  TestHostApi.post requests (TestHostApi.API_BASE_URL ++ "/chat")
    (PDict (TestHostApi.chat_payload message session_id user_id))
    TestHostApi.json_headers
  = inr (TestHostApi.response_of
           (fst (POST_chat runner (mkChatRequest message) server_out))
           body_text) ->
  exists verdict : bool,
    fst (TestHostApi.test_chat requests message session_id user_id out)
    = inr verdict
    /\ (verdict = true
        <-> exists r : ChatResponse,
              chat runner (mkChatRequest message) server_out
              = (inr r, server_out)).
Proof.
  intros Hpost. eexists. rewrite test_chat_run, Hpost. cbn [fst].
  split; [reflexivity |].
  destruct (post_chat_reply runner (mkChatRequest message) server_out)
    as [(r & Hchat & ->) | (detail & out' & Hchat & ->)].
  - split; [intros _; now exists r | reflexivity].
  - split; [discriminate |].
    intros (r & Hr). rewrite Hr in Hchat. discriminate.
Qed.

Lemma X8_test_chat_against_service_witness :
  TestHostApi.post (TestHostApi.service_network sample_runner)
    (TestHostApi.API_BASE_URL ++ "/chat")
    (PDict (TestHostApi.chat_payload "Hello, how are you?" None None))
    TestHostApi.json_headers
  = inr (TestHostApi.response_of
           (fst (POST_chat sample_runner
                   (mkChatRequest "Hello, how are you?") []))
           "{}")
  /\ exists verdict : bool,
       fst (TestHostApi.test_chat (TestHostApi.service_network sample_runner)
              "Hello, how are you?" None None [])
       = inr verdict
       /\ (verdict = true
           <-> exists r : ChatResponse,
                 chat sample_runner (mkChatRequest "Hello, how are you?") []
                 = (inr r, [])).
Proof.
  split; [reflexivity |].
  exact (X8_test_chat_passes_iff_chat_returned
           (TestHostApi.service_network sample_runner) sample_runner
           "Hello, how are you?" None None "{}" [] [] eq_refl).
Defined.

(** ** The whole script *)









Example partial_network_tally :
  last (snd (TestHostApi.main TestHostApi.partial_network []))
    (TestHostApi.Slept 0)
  = TestHostApi.Printed
      [TestHostApi.Lit (TestHostApi.nl ++ "Overall: 2/4 tests passed")].
Proof. reflexivity. Qed.
